(** * httpExporter: an OpenTelemetry span exporter over HTTP

    A shallow embedding of [convert.go], [exporter.go] and the environment
    helper [envOr], together with the parts of the Go libraries they call
    (go.opentelemetry.io/otel/attribute, otel/codes, otel/trace,
    encoding/json, net/url, net/http), and the properties of the exporter
    proved over that embedding.

    Conventions.
    - Go's [int64], [uint64] and [int] are [Z]; conversions between them
      are written out with their wrap-around.
    - A [float64] is carried by its IEEE-754 binary64 bit pattern: the
      exporter never computes with floats, it only moves them.
    - A Go [string] is a [string]; a Go slice is a [list] (a nil slice and
      an empty one are both the empty list: the slices that can be nil
      here are tagged [omitempty], which leaves out the one and the
      other).
    - [map[attribute.Key]interface{}] is a [gmap string any]; the exporter
      only ever builds its maps with [make], so they are never nil.
    - The [stoppedMu] lock protects one boolean; calls are modelled one at
      a time, as each critical section is a single read or write.
    - A pointer or interface that may be nil is an [option], [None] being
      nil: the context of [ExportSpans], the arguments of [WithLogger]
      and [WithClient]. [Shutdown] calls a method of its context, and so
      takes a context that is not nil. *)

From Stdlib Require Import ZArith Lia.
From Stdlib.Strings Require Import Ascii Byte.
From stdpp Require Import base option list gmap strings sorting.

Local Open Scope Z_scope.
#[local] Set Warnings "-register-all,-clear-no-such-hyp".

(** ** Machine integers *)

Definition is_int64 (z : Z) : Prop := - 2 ^ 63 <= z < 2 ^ 63.
Definition is_uint64 (z : Z) : Prop := 0 <= z < 2 ^ 64.

(** The conversion [uint64(i)] of an [int64]. *)
Definition uint64_of_int64 (i : Z) : Z := i mod 2 ^ 64.

(** The conversion [int64(r)] of a [uint64]. *)
Definition int64_of_uint64 (r : Z) : Z :=
  if decide (r < 2 ^ 63) then r else r - 2 ^ 64.

(** A [float64], by its bits: [math.Float64bits] and [math.Float64frombits]
    are the projection and the constructor. *)
Record float64 := Float64frombits { Float64bits : Z }.

Definition is_float64 (f : float64) : Prop := is_uint64 (Float64bits f).

Global Instance float64_eq_dec : EqDecision float64.
Proof. solve_decision. Defined.

(** A binary64 is finite when its 11 exponent bits are not all ones;
    otherwise it is an infinity or a NaN. *)
Definition float64_finite (f : float64) : bool :=
  negb (Z.land (Z.shiftr (Float64bits f) 52) 2047 =? 2047).

(** ** go.opentelemetry.io/otel/attribute *)

Module attribute.

Inductive Type_ :=
| INVALID | BOOL | INT64 | FLOAT64 | STRING
| BOOLSLICE | INT64SLICE | FLOAT64SLICE | STRINGSLICE.

(** What the [slice interface{}] field of a [Value] may hold. *)
Inductive slice_box :=
| NoSlice
| BoolSlicePtr (s : list bool)
| Int64SlicePtr (s : list Z)
| Float64SlicePtr (s : list float64)
| StringSlicePtr (s : list string).

Record Value := mkValue {
  vtype : Type_;
  numeric : Z;          (* uint64 *)
  stringly : string;
  slice : slice_box;
}.

(** The zero [Value]: type INVALID. *)
Definition zeroValue : Value := mkValue INVALID 0 "" NoSlice.

(** internal.BoolToRaw, RawToBool, Int64ToRaw, RawToInt64, Float64ToRaw,
    RawToFloat64 *)
Definition BoolToRaw (b : bool) : Z := if b then 1 else 0.
Definition RawToBool (r : Z) : bool := negb (r =? 0).
Definition Int64ToRaw (i : Z) : Z := uint64_of_int64 i.
Definition RawToInt64 (r : Z) : Z := int64_of_uint64 r.
Definition Float64ToRaw (f : float64) : Z := Float64bits f.
Definition RawToFloat64 (r : Z) : float64 := Float64frombits r.

Definition BoolValue (v : bool) : Value := mkValue BOOL (BoolToRaw v) "" NoSlice.
Definition Int64Value (v : Z) : Value := mkValue INT64 (Int64ToRaw v) "" NoSlice.
Definition Float64Value (v : float64) : Value :=
  mkValue FLOAT64 (Float64ToRaw v) "" NoSlice.
Definition StringValue (v : string) : Value := mkValue STRING 0 v NoSlice.
Definition BoolSliceValue (v : list bool) : Value :=
  mkValue BOOLSLICE 0 "" (BoolSlicePtr v).
Definition Int64SliceValue (v : list Z) : Value :=
  mkValue INT64SLICE 0 "" (Int64SlicePtr v).
Definition Float64SliceValue (v : list float64) : Value :=
  mkValue FLOAT64SLICE 0 "" (Float64SlicePtr v).
Definition StringSliceValue (v : list string) : Value :=
  mkValue STRINGSLICE 0 "" (StringSlicePtr v).

Definition AsBool (v : Value) : bool := RawToBool (numeric v).
Definition AsInt64 (v : Value) : Z := RawToInt64 (numeric v).
Definition AsFloat64 (v : Value) : float64 := RawToFloat64 (numeric v).
Definition AsString (v : Value) : string := stringly v.
Definition AsBoolSlice (v : Value) : list bool :=
  match slice v with BoolSlicePtr s => s | _ => [] end.
Definition AsInt64Slice (v : Value) : list Z :=
  match slice v with Int64SlicePtr s => s | _ => [] end.
Definition AsFloat64Slice (v : Value) : list float64 :=
  match slice v with Float64SlicePtr s => s | _ => [] end.
Definition AsStringSlice (v : Value) : list string :=
  match slice v with StringSlicePtr s => s | _ => [] end.

(** A Go [interface{}] holding what [AsInterface] can return. *)
Inductive any :=
| AnyBool (b : bool)
| AnyInt64 (i : Z)
| AnyFloat64 (f : float64)
| AnyString (s : string)
| AnyBoolSlice (s : list bool)
| AnyInt64Slice (s : list Z)
| AnyFloat64Slice (s : list float64)
| AnyStringSlice (s : list string)
| AnyUnknownValueType.    (* unknownValueType{} *)

Definition AsInterface (v : Value) : any :=
  match vtype v with
  | BOOL => AnyBool (AsBool v)
  | BOOLSLICE => AnyBoolSlice (AsBoolSlice v)
  | INT64 => AnyInt64 (AsInt64 v)
  | INT64SLICE => AnyInt64Slice (AsInt64Slice v)
  | FLOAT64 => AnyFloat64 (AsFloat64 v)
  | FLOAT64SLICE => AnyFloat64Slice (AsFloat64Slice v)
  | STRING => AnyString (stringly v)
  | STRINGSLICE => AnyStringSlice (AsStringSlice v)
  | INVALID => AnyUnknownValueType
  end.

Record KeyValue := mkKeyValue {
  Key : string;          (* attribute.Key, a string type *)
  Value_ : Value;
}.

(** A typed attribute value as the instrumented program supplies it:
    the argument of one of the eight constructors above. *)
Inductive typed :=
| TBool (b : bool)
| TInt64 (i : Z)
| TFloat64 (f : float64)
| TString (s : string)
| TBoolSlice (s : list bool)
| TInt64Slice (s : list Z)
| TFloat64Slice (s : list float64)
| TStringSlice (s : list string).

Global Instance typed_eq_dec : EqDecision typed.
Proof. solve_decision. Defined.

Definition ValueOf (t : typed) : Value :=
  match t with
  | TBool b => BoolValue b
  | TInt64 i => Int64Value i
  | TFloat64 f => Float64Value f
  | TString s => StringValue s
  | TBoolSlice s => BoolSliceValue s
  | TInt64Slice s => Int64SliceValue s
  | TFloat64Slice s => Float64SliceValue s
  | TStringSlice s => StringSliceValue s
  end.

(** The typed value is one a Go program can hold: integers fit an
    [int64], float bit patterns fit 64 bits. *)
Definition supported (t : typed) : Prop :=
  match t with
  | TInt64 i => is_int64 i
  | TFloat64 f => is_float64 f
  | TInt64Slice s => Forall is_int64 s
  | TFloat64Slice s => Forall is_float64 s
  | _ => True
  end.

(** Reading a generic value back by a type switch
    ([switch x := v.(type) { case bool: ... }]). *)
Definition extract (v : any) : option typed :=
  match v with
  | AnyBool b => Some (TBool b)
  | AnyInt64 i => Some (TInt64 i)
  | AnyFloat64 f => Some (TFloat64 f)
  | AnyString s => Some (TString s)
  | AnyBoolSlice s => Some (TBoolSlice s)
  | AnyInt64Slice s => Some (TInt64Slice s)
  | AnyFloat64Slice s => Some (TFloat64Slice s)
  | AnyStringSlice s => Some (TStringSlice s)
  | AnyUnknownValueType => None
  end.

End attribute.

(** ** convert.go: attributesToMap *)

(** [attrs := make(map...); for _, v := range attributes
     { attrs[v.Key] = v.Value.AsInterface() }; return attrs] *)
Definition attributesToMap (attributes : list attribute.KeyValue)
  : gmap string attribute.any :=
  foldl (λ attrs v,
           <[attribute.Key v := attribute.AsInterface (attribute.Value_ v)]> attrs)
        ∅ attributes.

(** The pairs of [attributes] stored under key [k], in input order. *)
Definition occurrences (k : string) (attributes : list attribute.KeyValue)
  : list attribute.KeyValue :=
  filter (λ v, attribute.Key v = k) attributes.

(** ** go.opentelemetry.io/otel/codes *)

Module codes.

(** [type Code uint32] with the three values Unset = 0, Error = 1, Ok = 2. *)
Inductive Code := Unset | Error | Ok.

(** [Code.String], generated by stringer. *)
Definition String (c : Code) : string :=
  match c with
  | Unset => "Unset"
  | Error => "Error"
  | Ok => "Ok"
  end.

End codes.

(** ** go.opentelemetry.io/otel/trace *)

Module trace.

(** [type SpanKind int]; the type has a [String] method and no JSON
    marshaller of its own. *)
Definition SpanKind : Type := Z.

Definition SpanKindUnspecified : SpanKind := 0.
Definition SpanKindInternal : SpanKind := 1.
Definition SpanKindServer : SpanKind := 2.
Definition SpanKindClient : SpanKind := 3.
Definition SpanKindProducer : SpanKind := 4.
Definition SpanKindConsumer : SpanKind := 5.

(** [SpanKind.String]: the name in lower case, "unspecified" by default. *)
Definition SpanKind_String (sk : SpanKind) : string :=
  if decide (sk = SpanKindInternal) then "internal"
  else if decide (sk = SpanKindServer) then "server"
  else if decide (sk = SpanKindClient) then "client"
  else if decide (sk = SpanKindProducer) then "producer"
  else if decide (sk = SpanKindConsumer) then "consumer"
  else "unspecified".

(** [hex.EncodeToString]: two lower-case digits per byte. *)
Definition hexdigit (n : N) : ascii :=
  match String.get (N.to_nat n) "0123456789abcdef" with
  | Some c => c
  | None => "0"%char
  end.

Definition hex_EncodeToString (bs : list Byte.byte) : string :=
  foldr (λ b acc,
           String (hexdigit (N.div (Byte.to_N b) 16))
             (String (hexdigit (N.modulo (Byte.to_N b) 16)) acc))
        EmptyString bs.

(** [TraceID] is [[16]byte], [SpanID] is [[8]byte]; [String] is their
    hex encoding. *)
Definition TraceID : Type := list Byte.byte.
Definition SpanID : Type := list Byte.byte.
Definition TraceID_String (t : TraceID) : string := hex_EncodeToString t.
Definition SpanID_String (s : SpanID) : string := hex_EncodeToString s.

Record SpanContext := mkSpanContext {
  SpanContext_TraceID : TraceID;
  SpanContext_SpanID : SpanID;
}.

End trace.

(** ** go.opentelemetry.io/otel/sdk/trace *)

Module sdktrace.

Record Status := mkStatus {
  Code : codes.Code;
  Description : string;
}.

Record Event := mkEvent {
  Event_Name : string;
  Event_Attributes : list attribute.KeyValue;
  Event_Time : Z;        (* Time.UnixNano(), an int64 *)
}.

Record Link := mkLink {
  Link_SpanContext : trace.SpanContext;
  Link_Attributes : list attribute.KeyValue;
}.

Record Library := mkLibrary {
  Library_Name : string;
  Library_Version : string;
}.

(** A [ReadOnlySpan] is an interface; the exporter sees a span only
    through its methods, so a span is the record of what they return.
    [StartTime], [EndTime] are the [UnixNano()] of the times returned;
    [Resource] is [Resource().Attributes()]. *)
Record ReadOnlySpan := mkSpan {
  Name : string;
  SpanContext : trace.SpanContext;
  Parent : trace.SpanContext;
  SpanKind : trace.SpanKind;
  StartTime : Z;
  EndTime : Z;
  Attributes : list attribute.KeyValue;
  Links : list Link;
  Events : list Event;
  Status_ : Status;
  InstrumentationLibrary : Library;
  Resource : list attribute.KeyValue;
}.

End sdktrace.

(** ** convert.go: the wire records *)

Record Event := mkEvent {
  Ts : Z;
  Event_Name : string;
  Event_Attrs : gmap string attribute.any;
}.

Record Link := mkLink {
  Link_TraceID : string;
  Link_SpanID : string;
  Link_Attrs : gmap string attribute.any;
}.

Record SpanData := mkSpanData {
  TraceID : string;
  SpanID : string;
  ParentSpanID : string;
  Name : string;
  StartTime : Z;
  EndTime : Z;
  Attrs : gmap string attribute.any;
  DroppedAttributeCount : Z;
  Links : list Link;
  DroppedLinkCount : Z;
  StatusCode : string;
  MessageEvents : list Event;
  DroppedMessageEventCount : Z;
  SpanKind : trace.SpanKind;
  StatusMessage : string;
  InstrumentationLibraryName : string;
  InstrumentationLibraryVersion : string;
  Resource : gmap string attribute.any;
}.

(** ** convert.go: the converters *)

(** [var l []Link; for _, v := range links { l = append(l, Link{...}) }] *)
Definition linksToSlice (links : list sdktrace.Link) : list Link :=
  foldl (λ l v,
           l ++ [ {| Link_TraceID :=
                       trace.TraceID_String
                         (trace.SpanContext_TraceID (sdktrace.Link_SpanContext v));
                     Link_SpanID :=
                       trace.SpanID_String
                         (trace.SpanContext_SpanID (sdktrace.Link_SpanContext v));
                     Link_Attrs := attributesToMap (sdktrace.Link_Attributes v) |} ])
        [] links.

(** [var e []Event; for _, v := range events { e = append(e, Event{...}) }] *)
Definition eventsToSlice (events : list sdktrace.Event) : list Event :=
  foldl (λ e v,
           e ++ [ {| Ts := sdktrace.Event_Time v;
                     Event_Name := sdktrace.Event_Name v;
                     Event_Attrs := attributesToMap (sdktrace.Event_Attributes v) |} ])
        [] events.

(** The body of the loop of [convertSpansToHttp]: [httpSpan := SpanData{}]
    followed by the assignments; the three dropped counts are never
    assigned and keep their zero value. *)
Definition convertSpan (span : sdktrace.ReadOnlySpan) : SpanData :=
  {| TraceID := trace.TraceID_String
                  (trace.SpanContext_TraceID (sdktrace.SpanContext span));
     SpanID := trace.SpanID_String
                 (trace.SpanContext_SpanID (sdktrace.SpanContext span));
     ParentSpanID := trace.SpanID_String
                       (trace.SpanContext_SpanID (sdktrace.Parent span));
     SpanKind := sdktrace.SpanKind span;
     Name := sdktrace.Name span;
     StatusMessage := sdktrace.Description (sdktrace.Status_ span);
     StatusCode := codes.String (sdktrace.Code (sdktrace.Status_ span));
     StartTime := sdktrace.StartTime span;
     EndTime := sdktrace.EndTime span;
     InstrumentationLibraryName :=
       sdktrace.Library_Name (sdktrace.InstrumentationLibrary span);
     InstrumentationLibraryVersion :=
       sdktrace.Library_Version (sdktrace.InstrumentationLibrary span);
     Resource := attributesToMap (sdktrace.Resource span);
     MessageEvents := eventsToSlice (sdktrace.Events span);
     Attrs := attributesToMap (sdktrace.Attributes span);
     Links := linksToSlice (sdktrace.Links span);
     DroppedAttributeCount := 0;
     DroppedLinkCount := 0;
     DroppedMessageEventCount := 0 |}.

(** [httpSpans := []SpanData{}; for _, span := range spans
     { ...; httpSpans = append(httpSpans, httpSpan) }; return httpSpans] *)
Definition convertSpansToHttp (spans : list sdktrace.ReadOnlySpan) : list SpanData :=
  foldl (λ httpSpans span, httpSpans ++ [convertSpan span]) [] spans.

(** ** encoding/json *)

Module json.

(** An encoded document, as the tree it denotes. *)
Inductive value :=
| Null
| Bool (b : bool)
| Number (i : Z)
| Float (f : float64)
| String (s : string)
| Array (elems : list value)
| Object (members : list (string * value)).

(** The value stored under the first member named [k]. *)
Fixpoint assoc (k : string) (members : list (string * value)) : option value :=
  match members with
  | [] => None
  | (k', v) :: rest => if decide (k' = k) then Some v else assoc k rest
  end.

Definition member (k : string) (v : value) : option value :=
  match v with
  | Object members => assoc k members
  | _ => None
  end.

Definition names (v : value) : list string :=
  match v with
  | Object members => members.*1
  | _ => []
  end.

(** The value is a JSON string. *)
Definition is_String (v : value) : bool :=
  match v with
  | String _ => true
  | _ => false
  end.

(** A float is encoded unless it is an infinity or a NaN, for which
    [Marshal] returns an [UnsupportedValueError]; [None] is that error. *)
Definition marshal_float (f : float64) : option value :=
  if float64_finite f then Some (Float f) else None.

(** The encoding of the dynamic value of an [interface{}]. *)
Definition marshal_any (v : attribute.any) : option value :=
  match v with
  | attribute.AnyBool b => Some (Bool b)
  | attribute.AnyInt64 i => Some (Number i)
  | attribute.AnyFloat64 f => marshal_float f
  | attribute.AnyString s => Some (String s)
  | attribute.AnyBoolSlice s => Some (Array (Bool <$> s))
  | attribute.AnyInt64Slice s => Some (Array (Number <$> s))
  | attribute.AnyFloat64Slice s => Array <$> mapM marshal_float s
  | attribute.AnyStringSlice s => Some (Array (String <$> s))
  | attribute.AnyUnknownValueType => Some (Object [])
  end.

(** A map with string keys is encoded as an object, keys sorted. *)
Definition key_le (p q : string * attribute.any) : Prop := String.le p.1 q.1.

Global Instance key_le_dec : RelDecision key_le.
Proof. intros p q. unfold key_le, String.le. apply _. Defined.

Definition marshal_map (m : gmap string attribute.any) : option value :=
  Object <$> mapM (λ p, pair p.1 <$> marshal_any p.2)
                  (merge_sort key_le (map_to_list m)).

(** A struct field as the encoder sees it: its JSON name, whether its tag
    says [omitempty], whether its value is empty ([isEmptyValue]: zero
    number, empty string, slice or map of length 0), and its encoding. *)
Record field := mkField {
  name : string;
  omitEmpty : bool;
  isEmptyValue : bool;
  encoded : option value;
}.

(** The fields in declaration order, those that are [omitempty] and empty
    skipped; the first field that fails to encode fails the struct. *)
Definition marshal_struct (fields : list field) : option value :=
  Object <$> mapM (λ f, pair (name f) <$> encoded f)
                  (filter (λ f, ¬ (omitEmpty f && isEmptyValue f)) fields).

End json.

(** The fields of [Link], [Event] and [SpanData] with their tags. *)
Definition Link_fields (l : Link) : list json.field :=
  [ json.mkField "traceId" false (bool_decide (Link_TraceID l = ""))
      (Some (json.String (Link_TraceID l)));
    json.mkField "spanId" false (bool_decide (Link_SpanID l = ""))
      (Some (json.String (Link_SpanID l)));
    json.mkField "attrs" false (bool_decide (size (Link_Attrs l) = 0%nat))
      (json.marshal_map (Link_Attrs l)) ].

Definition Event_fields (e : Event) : list json.field :=
  [ json.mkField "ts" false (bool_decide (Ts e = 0))
      (Some (json.Number (Ts e)));
    json.mkField "name" false (bool_decide (Event_Name e = ""))
      (Some (json.String (Event_Name e)));
    json.mkField "attrs" false (bool_decide (size (Event_Attrs e) = 0%nat))
      (json.marshal_map (Event_Attrs e)) ].

Definition marshal_Link (l : Link) : option json.value :=
  json.marshal_struct (Link_fields l).

Definition marshal_Event (e : Event) : option json.value :=
  json.marshal_struct (Event_fields e).

Definition SpanData_fields (d : SpanData) : list json.field :=
  [ json.mkField "traceId" false (bool_decide (TraceID d = ""))
      (Some (json.String (TraceID d)));
    json.mkField "spanId" false (bool_decide (SpanID d = ""))
      (Some (json.String (SpanID d)));
    json.mkField "parentSpanId" false (bool_decide (ParentSpanID d = ""))
      (Some (json.String (ParentSpanID d)));
    json.mkField "name" false (bool_decide (Name d = ""))
      (Some (json.String (Name d)));
    json.mkField "startTime" false (bool_decide (StartTime d = 0))
      (Some (json.Number (StartTime d)));
    json.mkField "endTime" false (bool_decide (EndTime d = 0))
      (Some (json.Number (EndTime d)));
    json.mkField "attrs" false (bool_decide (size (Attrs d) = 0%nat))
      (json.marshal_map (Attrs d));
    json.mkField "droppedAttributesCount" false
      (bool_decide (DroppedAttributeCount d = 0))
      (Some (json.Number (DroppedAttributeCount d)));
    json.mkField "links" true (bool_decide (length (Links d) = 0%nat))
      (json.Array <$> mapM marshal_Link (Links d));
    json.mkField "droppedLinkCount" false (bool_decide (DroppedLinkCount d = 0))
      (Some (json.Number (DroppedLinkCount d)));
    json.mkField "statusCode" false (bool_decide (StatusCode d = ""))
      (Some (json.String (StatusCode d)));
    json.mkField "messageEvents" true
      (bool_decide (length (MessageEvents d) = 0%nat))
      (json.Array <$> mapM marshal_Event (MessageEvents d));
    json.mkField "droppedMessageEventCount" false
      (bool_decide (DroppedMessageEventCount d = 0))
      (Some (json.Number (DroppedMessageEventCount d)));
    json.mkField "spanKind" false (bool_decide (SpanKind d = 0))
      (Some (json.Number (SpanKind d)));
    json.mkField "statusMessage" false (bool_decide (StatusMessage d = ""))
      (Some (json.String (StatusMessage d)));
    json.mkField "instrumentationLibraryName" false
      (bool_decide (InstrumentationLibraryName d = ""))
      (Some (json.String (InstrumentationLibraryName d)));
    json.mkField "instrumentationLibraryVersion" false
      (bool_decide (InstrumentationLibraryVersion d = ""))
      (Some (json.String (InstrumentationLibraryVersion d)));
    json.mkField "resource" true (bool_decide (size (Resource d) = 0%nat))
      (json.marshal_map (Resource d)) ].

Definition marshal_SpanData (d : SpanData) : option json.value :=
  json.marshal_struct (SpanData_fields d).

(** [json.Marshal(&httpSpans)]: the array of the encoded records. *)
Definition json_Marshal (httpSpans : list SpanData) : option json.value :=
  json.Array <$> mapM marshal_SpanData httpSpans.

(** ** Errors and results *)

(** A Go [error] value. [Errorf format args] is [fmt.Errorf(format,
    args...)], kept unformatted. *)
Inductive fmt_arg :=
| ArgString (s : string)
| ArgInt (i : Z).

Inductive error :=
| errorString (text : string)                     (* errors.New(text) *)
| Errorf (format : string) (args : list fmt_arg) (cause : option error)
| url_Error (op url : string) (err : error).      (* *url.Error *)

(** The pair [(value, err)] a fallible Go function returns. *)
Inductive result (A : Type) :=
| Ok (a : A)
| Err (err : error).
Arguments Ok {A} a.
Arguments Err {A} err.

Definition is_Ok {A} (r : result A) : bool :=
  match r with Ok _ => true | Err _ => false end.

(** ** strings *)

Module gostrings.

Fixpoint IndexByte (s : string) (c : ascii) : option nat :=
  match s with
  | EmptyString => None
  | String a s' => if decide (a = c) then Some 0%nat else S <$> IndexByte s' c
  end.

Definition ContainsByte (s : string) (c : ascii) : bool :=
  bool_decide (is_Some (IndexByte s c)).

Fixpoint CountByte (s : string) (c : ascii) : nat :=
  match s with
  | EmptyString => 0%nat
  | String a s' => ((if decide (a = c) then 1 else 0) + CountByte s' c)%nat
  end.

(** [strings.Cut(s, sep)] for a separator of one byte. *)
Definition Cut (s : string) (sep : ascii) : string * string * bool :=
  match IndexByte s sep with
  | Some i => (String.substring 0 i s,
               String.substring (S i) (String.length s - S i) s, true)
  | None => (s, "", false)
  end.

Definition HasPrefix (s prefix : string) : bool := String.prefix prefix s.

Fixpoint HasSuffixByte (s : string) (c : ascii) : bool :=
  match s with
  | EmptyString => false
  | String a EmptyString => bool_decide (a = c)
  | String _ s' => HasSuffixByte s' c
  end.

Definition lower (c : ascii) : ascii :=
  let n := nat_of_ascii c in
  if bool_decide (65 ≤ n ≤ 90)%nat then ascii_of_nat (n + 32) else c.

Fixpoint ToLower (s : string) : string :=
  match s with
  | EmptyString => EmptyString
  | String a s' => String (lower a) (ToLower s')
  end.

(** [s[i:]] *)
Definition from (i : nat) (s : string) : string :=
  String.substring i (String.length s - i) s.

End gostrings.

(** ** context *)

Module context.

(** A context, by what [Err()] returns; [Done()] is closed exactly when
    that is not nil. *)
Record Context := mkContext { Err_ : option error }.

Definition Canceled : error := errorString "context canceled".
Definition DeadlineExceeded : error := errorString "context deadline exceeded".

Definition Background : Context := mkContext None.

Definition Done (ctx : Context) : bool := bool_decide (is_Some (Err_ ctx)).

End context.

(** ** net/url *)

Module url.

Record URL := mkURL {
  Scheme : string;
  Opaque : string;
  Host : string;
  Path : string;
  ForceQuery : bool;
  RawQuery : string;
  Fragment : string;
}.

(** [b < ' ' || b == 0x7f] for some byte of the string *)
Fixpoint stringContainsCTLByte (s : string) : bool :=
  match s with
  | EmptyString => false
  | String b s' =>
    let n := nat_of_ascii b in
    bool_decide (n < 32)%nat || bool_decide (n = 127%nat) || stringContainsCTLByte s'
  end.

Definition is_letter (c : ascii) : bool :=
  let n := nat_of_ascii c in
  bool_decide (97 ≤ n ≤ 122)%nat || bool_decide (65 ≤ n ≤ 90)%nat.

Definition is_scheme_punct (c : ascii) : bool :=
  let n := nat_of_ascii c in
  bool_decide (48 ≤ n ≤ 57)%nat
  || bool_decide (c = "+"%char) || bool_decide (c = "-"%char)
  || bool_decide (c = "."%char).

(** How the loop of [getScheme] ends, from index [i] on. *)
Inductive scheme_scan :=
| NoScheme                (* return "", rawURL, nil *)
| MissingScheme           (* a colon at index 0 *)
| SchemeEnds (i : nat).   (* a colon at index i > 0 *)

Fixpoint scanScheme (i : nat) (s : string) : scheme_scan :=
  match s with
  | EmptyString => NoScheme
  | String c s' =>
    if is_letter c then scanScheme (S i) s'
    else if is_scheme_punct c then
      (if bool_decide (i = 0%nat) then NoScheme else scanScheme (S i) s')
    else if bool_decide (c = ":"%char) then
      (if bool_decide (i = 0%nat) then MissingScheme else SchemeEnds i)
    else NoScheme
  end.

Definition getScheme (rawURL : string) : result (string * string) :=
  match scanScheme 0 rawURL with
  | NoScheme => Ok ("", rawURL)
  | MissingScheme => Err (errorString "missing protocol scheme")
  | SchemeEnds i => Ok (String.substring 0 i rawURL, gostrings.from (S i) rawURL)
  end.

End url.

(** ** net/http and log *)

Module http.

Record Request := mkRequest {
  Method : string;
  URL : string;
  Ctx : context.Context;
  Header : list (string * string);
  Body : json.value;
}.

(** A response, by its status code and by what reading its body to the
    end returns ([io.Copy(ioutil.Discard, resp.Body)]). *)
Record Response := mkResponse {
  StatusCode : Z;
  BodyReadErr : option error;
}.

(** The [Do] method of an HTTP client, as the transport it stands for. *)
Definition Client : Type := Request → result Response.

(** [req.Header.Set(key, value)] *)
Definition Header_Set (req : Request) (key value : string) : Request :=
  mkRequest (Method req) (URL req) (Ctx req)
    ((key, value) :: filter (λ h, h.1 ≠ key) (Header req)) (Body req).

End http.

Module log.

Record Logger := mkLogger { prefix : string }.

End log.

(** What a call does to the world outside the exporter, in order. *)
Inductive event :=
| LogPrintf (l : log.Logger) (format : string)   (* logger.Printf(format) *)
| JsonMarshal (httpSpans : list SpanData)        (* json.Marshal(&httpSpans) *)
| HttpDo (req : http.Request)                    (* client.Do(req) *)
| BodyRead                                       (* io.Copy(ioutil.Discard, resp.Body) *)
| BodyClose.                                     (* resp.Body.Close() *)

Definition is_network (ev : event) : bool :=
  match ev with
  | HttpDo _ | BodyRead | BodyClose => true
  | _ => false
  end.

Definition is_serialization (ev : event) : bool :=
  match ev with
  | JsonMarshal _ => true
  | _ => false
  end.

(** The requests issued by a run. *)
Definition requests (t : list event) : list http.Request :=
  omap (λ ev, match ev with HttpDo req => Some req | _ => None end) t.

(** ** exporter.go *)

Definition defaultURL : string := "http://localhost:4000/".
Definition envEndpoint : string := "OTEL_EXPORTER_HTTP_ENDPOINT".

Record Exporter := mkExporter {
  url_ : string;
  serviceName : string;
  client : http.Client;
  logger : option log.Logger;
  stopped : bool;
}.

Record config := mkConfig {
  config_client : option http.Client;
  config_logger : option log.Logger;
}.

(** An [Option] is its [apply] method. *)
Definition Option : Type := config → config.

(** [WithLogger(logger)] and [WithClient(client)] store the pointer they
    are given, nil or not. *)
Definition WithLogger (logger : option log.Logger) : Option :=
  λ cfg, mkConfig (config_client cfg) logger.

Definition WithClient (client : option http.Client) : Option :=
  λ cfg, mkConfig client (config_logger cfg).

(** [if e.logger != nil { e.logger.Printf(format) }]: the arguments are
    not passed on. *)
Definition logf (e : Exporter) (format : string) : list event :=
  match logger e with
  | Some l => [LogPrintf l format]
  | None => []
  end.

(** [e.logf(format, args...); return fmt.Errorf(format)], after the
    events [t] of the call so far. *)
Definition errf (e : Exporter) (t : list event) (format : string)
  : list event * option error :=
  (t ++ logf e format, Some (Errorf format [] None)).

(** A successful encoding is never a nil byte slice. *)
Definition body_is_nil (body : json.value) : bool := false.

(** ** Data for the examples *)

(** The span of the specification's scenario: trace id
    4bf92f3577b34da6a3ce929d0e0e4736, span id 00f067aa0ba902b7, no parent,
    name "GET /", status Ok; a server span with no attribute, link, event
    or resource attribute. *)
Definition scenario_span : sdktrace.ReadOnlySpan :=
  sdktrace.mkSpan "GET /"
    (trace.mkSpanContext
       [x4b; xf9; x2f; x35; x77; xb3; x4d; xa6;
        xa3; xce; x92; x9d; x0e; x0e; x47; x36]%byte
       [x00; xf0; x67; xaa; x0b; xa9; x02; xb7]%byte)
    (trace.mkSpanContext
       [x00; x00; x00; x00; x00; x00; x00; x00;
        x00; x00; x00; x00; x00; x00; x00; x00]%byte
       [x00; x00; x00; x00; x00; x00; x00; x00]%byte)
    trace.SpanKindServer 1000 2000 [] [] []
    (sdktrace.mkStatus codes.Ok "") (sdktrace.mkLibrary "example" "v1") [].

(** The same span with one attribute of each scalar type, a link, an
    event and a resource attribute. *)
Definition busy_span : sdktrace.ReadOnlySpan :=
  sdktrace.mkSpan "GET /"
    (sdktrace.SpanContext scenario_span) (sdktrace.Parent scenario_span)
    trace.SpanKindClient 1000 2000
    [ attribute.mkKeyValue "http.method" (attribute.StringValue "GET");
      attribute.mkKeyValue "retries" (attribute.Int64Value (-1));
      attribute.mkKeyValue "cached" (attribute.BoolValue true);
      attribute.mkKeyValue "ratio" (attribute.Float64Value (Float64frombits 0)) ]
    [ sdktrace.mkLink (sdktrace.SpanContext scenario_span)
        [ attribute.mkKeyValue "why" (attribute.StringValue "follows") ] ]
    [ sdktrace.mkEvent "sent" [] 1500 ]
    (sdktrace.mkStatus codes.Error "boom") (sdktrace.mkLibrary "example" "v1")
    [ attribute.mkKeyValue "service.name" (attribute.StringValue "shop") ].

(** A transport that answers every request with the given status and a
    body that reads to its end. *)
Definition mockTransport (status : Z) : http.Client :=
  λ _, Ok (http.mkResponse status None).

(** Sub-parsers that accept their input as it is, and an environment
    with no variable set. *)
Definition accept (s : string) : result string := Ok s.
Definition emptyEnv (key : string) : option string := None.

(** An exporter as [New] leaves it, for the default URL and no logger. *)
Definition activeExporter (client : http.Client) : Exporter :=
  mkExporter defaultURL "" client None false.

Definition canceledCtx : context.Context := context.mkContext (Some context.Canceled).

Section Exporter.

(** The parts of the platform the exporter is linked with: the three
    sub-parsers of net/url ([parseAuthority] gives the host of an
    authority, [setPath] and [setFragment] the unescaped path and
    fragment), the process environment and [http.DefaultClient]. *)
Variable parseAuthority : string → result string.
Variable setPath : string → result string.
Variable setFragment : string → result string.
Variable LookupEnv : string → option string.
Variable DefaultClient : http.Client.

(** The end of net/url's [parse], from the authority on. *)
Definition parse_hier (scheme rest rawQuery : string) (forceQuery viaRequest : bool)
  : result url.URL :=
  let authority_rest :=
    if (negb (bool_decide (scheme = ""))
        || negb viaRequest && negb (gostrings.HasPrefix rest "///"))
       && gostrings.HasPrefix rest "//"
    then
      let authority := gostrings.from 2 rest in
      let '(authority, rest) :=
        match gostrings.IndexByte authority "/" with
        | Some i => (String.substring 0 i authority, gostrings.from i authority)
        | None => (authority, "")
        end in
      match parseAuthority authority with
      | Err err => Err err
      | Ok host => Ok (host, rest)
      end
    else Ok ("", rest) in
  match authority_rest with
  | Err err => Err err
  | Ok (host, rest) =>
    match setPath rest with
    | Err err => Err err
    | Ok path => Ok (url.mkURL scheme "" host path forceQuery rawQuery "")
    end
  end.

(** net/url's [parse(rawURL, viaRequest)] *)
Definition url_parse (rawURL : string) (viaRequest : bool) : result url.URL :=
  if url.stringContainsCTLByte rawURL
  then Err (errorString "net/url: invalid control character in URL")
  else if bool_decide (rawURL = "") && viaRequest
  then Err (errorString "empty url")
  else if bool_decide (rawURL = "*")
  then Ok (url.mkURL "" "" "" "*" false "" "")
  else
    match url.getScheme rawURL with
    | Err err => Err err
    | Ok (scheme, rest) =>
      let scheme := gostrings.ToLower scheme in
      let '(rest, rawQuery, forceQuery) :=
        if gostrings.HasSuffixByte rest "?"
           && bool_decide (gostrings.CountByte rest "?" = 1%nat)
        then (String.substring 0 (String.length rest - 1) rest, "", true)
        else let '(r, q, _) := gostrings.Cut rest "?" in (r, q, false) in
      if negb (gostrings.HasPrefix rest "/") then
        if negb (bool_decide (scheme = ""))
        then Ok (url.mkURL scheme rest "" "" forceQuery rawQuery "")
        else if viaRequest
        then Err (errorString "invalid URI for request")
        else if gostrings.ContainsByte (gostrings.Cut rest "/").1.1 ":"
        then Err (errorString "first path segment in URL cannot contain colon")
        else parse_hier scheme rest rawQuery forceQuery viaRequest
      else parse_hier scheme rest rawQuery forceQuery viaRequest
    end.

(** [url.Parse(rawURL)] *)
Definition url_Parse (rawURL : string) : result url.URL :=
  let '(u, frag, _) := gostrings.Cut rawURL "#" in
  match url_parse u false with
  | Err err => Err (url_Error "parse" u err)
  | Ok url =>
    if bool_decide (frag = "") then Ok url
    else
      match setFragment frag with
      | Err err => Err (url_Error "parse" rawURL err)
      | Ok f =>
        Ok (url.mkURL (url.Scheme url) (url.Opaque url) (url.Host url)
              (url.Path url) (url.ForceQuery url) (url.RawQuery url) f)
      end
  end.

(** [http.NewRequestWithContext(ctx, method, url, body)] for a valid
    method: it fails on a nil context, and then when the URL does not
    parse. *)
Definition NewRequestWithContext (ctx : option context.Context)
    (method url : string) (body : json.value) : result http.Request :=
  match ctx with
  | None => Err (errorString "net/http: nil Context")
  | Some ctx =>
    match url_Parse url with
    | Err err => Err err
    | Ok _ => Ok (http.mkRequest method url ctx [] body)
    end
  end.

(** [envOr(key, defaultValue)] *)
Definition envOr (key defaultValue : string) : string :=
  match LookupEnv key with
  | Some v => if negb (bool_decide (v = "")) then v else defaultValue
  | None => defaultValue
  end.

(** The collector URL [New] goes on with. *)
Definition resolveURL (collectorURL : string) : string :=
  if bool_decide (collectorURL = "") then envOr envEndpoint defaultURL
  else collectorURL.

Definition New (collectorURL : string) (opts : list Option) : result Exporter :=
  let collectorURL := resolveURL collectorURL in
  match url_Parse collectorURL with
  | Err err =>
    Err (Errorf "invalid collector URL %q: %v" [ArgString collectorURL] (Some err))
  | Ok u =>
    if bool_decide (url.Scheme u = "") || bool_decide (url.Host u = "")
    then Err (Errorf "invalid collector URL %q: no scheme or host"
                [ArgString collectorURL] None)
    else
      let cfg := foldl (λ cfg (opt : Option), opt cfg) (mkConfig None None) opts in
      let client :=
        match config_client cfg with
        | None => DefaultClient
        | Some c => c
        end in
      Ok (mkExporter collectorURL "" client (config_logger cfg) false)
  end.

(** [ExportSpans]: the events of the call and the error returned
    ([None] is [nil]). *)
Definition ExportSpans (e : Exporter) (ctx : option context.Context)
    (spans : list sdktrace.ReadOnlySpan) : list event * option error :=
  let stopped := stopped e in
  if stopped
  then (logf e "exporter stopped, not exporting span batch", None)
  else if bool_decide (length spans = 0%nat)
  then (logf e "no spans to export", None)
  else
    let httpSpans := convertSpansToHttp spans in
    let t := [JsonMarshal httpSpans] in
    match json_Marshal httpSpans with
    | None => errf e t "unable to serialize span data"
    | Some body =>
      if body_is_nil body then errf e t "empty span data"
      else
        let t := t ++ logf e "about to send a POST request to %s with body %s" in
        match NewRequestWithContext ctx "POST" (url_ e) body with
        | Err err => errf e t "failed to create request to %s: %v"
        | Ok req =>
          let req := http.Header_Set req "Content-Type" "application/json" in
          let t := t ++ [HttpDo req] in
          match client e req with
          | Err err => errf e t "request to %s failed: %v"
          | Ok resp =>
            (* defer resp.Body.Close() *)
            let '(t, r) :=
              let t := t ++ [BodyRead] in
              match http.BodyReadErr resp with
              | Some err => errf e t "failed to read response body: %v"
              | None =>
                if (http.StatusCode resp <? 200) && (http.StatusCode resp >? 300)
                then errf e t "failed to send spans to server with status %d"
                else (t ++ logf e "Spans sent with response code %d", None)
              end in
            (t ++ [BodyClose], r)
          end
        end
    end.

(** [Shutdown]: the exporter after the call and the error returned. *)
Definition Shutdown (e : Exporter) (ctx : context.Context)
  : Exporter * option error :=
  let e := mkExporter (url_ e) (serviceName e) (client e) (logger e) true in
  if context.Done ctx then (e, context.Err_ ctx)
  else (e, None).

(** A call of the host pipeline on the exporter. *)
Inductive call :=
| CallExportSpans (ctx : option context.Context)
    (spans : list sdktrace.ReadOnlySpan)
| CallShutdown (ctx : context.Context).

(** One call: the exporter after it, its events and its error. *)
Definition step (e : Exporter) (c : call) : Exporter * (list event * option error) :=
  match c with
  | CallExportSpans ctx spans => (e, ExportSpans e ctx spans)
  | CallShutdown ctx => let '(e', err) := Shutdown e ctx in (e', ([], err))
  end.

(** A sequence of calls, one after the other: the exporter at the end
    and the outcome of each call. *)
Fixpoint run (e : Exporter) (cs : list call)
  : Exporter * list (call * (list event * option error)) :=
  match cs with
  | [] => (e, [])
  | c :: cs =>
    let '(e', out) := step e c in
    let '(e'', outs) := run e' cs in
    (e'', (c, out) :: outs)
  end.

(** The call made no request and encoded nothing. *)
Definition quiet (t : list event) : Prop :=
  Forall (λ ev, is_network ev = false ∧ is_serialization ev = false) t.

(** The errors of [New]: both are built from a format that starts with
    "invalid collector URL". *)
Definition configuration_error (err : error) : Prop :=
  match err with
  | Errorf format _ _ => String.prefix "invalid collector URL" format = true
  | _ => False
  end.

(** The names of the fields of [SpanData] whose tag has no [omitempty]. *)
Definition required_names : list string :=
  [ "traceId"; "spanId"; "parentSpanId"; "name"; "startTime"; "endTime";
    "attrs"; "droppedAttributesCount"; "droppedLinkCount"; "statusCode";
    "droppedMessageEventCount"; "spanKind"; "statusMessage";
    "instrumentationLibraryName"; "instrumentationLibraryVersion" ].

(** The names of the fields of [SpanData] that the encoder keeps for the
    record [d], in the order of the declaration. *)
Definition present_names (d : SpanData) : list string :=
  [ "traceId"; "spanId"; "parentSpanId"; "name"; "startTime"; "endTime";
    "attrs"; "droppedAttributesCount" ]
  ++ (if bool_decide (length (Links d) = 0%nat) then [] else ["links"])
  ++ [ "droppedLinkCount"; "statusCode" ]
  ++ (if bool_decide (length (MessageEvents d) = 0%nat) then []
      else ["messageEvents"])
  ++ [ "droppedMessageEventCount"; "spanKind"; "statusMessage";
       "instrumentationLibraryName"; "instrumentationLibraryVersion" ]
  ++ (if bool_decide (size (Resource d) = 0%nat) then [] else ["resource"]).

(** The generic value holds no infinity and no NaN. *)
Definition finite_any (v : attribute.any) : bool :=
  match v with
  | attribute.AnyFloat64 f => float64_finite f
  | attribute.AnyFloat64Slice s => forallb float64_finite s
  | _ => true
  end.

Definition finite_attrs (m : gmap string attribute.any) : Prop :=
  map_Forall (λ _ v, finite_any v = true) m.

Definition finite_SpanData (d : SpanData) : Prop :=
  finite_attrs (Attrs d) ∧ finite_attrs (Resource d)
  ∧ Forall (λ l, finite_attrs (Link_Attrs l)) (Links d)
  ∧ Forall (λ e, finite_attrs (Event_Attrs e)) (MessageEvents d).

(** The outcome of a call made on a stopped exporter: an export returned
    nil, made no request and encoded nothing. *)
Definition silent_success (o : call * (list event * option error)) : Prop :=
  match o.1 with
  | CallExportSpans _ _ => o.2.2 = None ∧ requests o.2.1 = [] ∧ quiet o.2.1
  | CallShutdown _ => True
  end.

(** [MarshalLog]: the anonymous struct it returns. *)
Record ExporterLog := mkExporterLog {
  Log_Type : string;
  Log_URL : string;
}.

Definition MarshalLog (e : Exporter) : ExporterLog :=
  mkExporterLog "http" (url_ e).

(** The [Link] literal built in the loop of [linksToSlice], and the
    [Event] literal built in the loop of [eventsToSlice]. *)
Definition convertLink (v : sdktrace.Link) : Link :=
  {| Link_TraceID :=
       trace.TraceID_String
         (trace.SpanContext_TraceID (sdktrace.Link_SpanContext v));
     Link_SpanID :=
       trace.SpanID_String
         (trace.SpanContext_SpanID (sdktrace.Link_SpanContext v));
     Link_Attrs := attributesToMap (sdktrace.Link_Attributes v) |}.

Definition convertEvent (v : sdktrace.Event) : Event :=
  {| Ts := sdktrace.Event_Time v;
     Event_Name := sdktrace.Event_Name v;
     Event_Attrs := attributesToMap (sdktrace.Event_Attributes v) |}.

(** The options a caller of [New] can build, by the function that builds
    them and its argument. *)
Inductive setting :=
| UseLogger (l : option log.Logger)      (* WithLogger(l), l nil or not *)
| UseClient (c : option http.Client).    (* WithClient(c), c nil or not *)

Definition option_of (s : setting) : Option :=
  match s with
  | UseLogger l => WithLogger l
  | UseClient c => WithClient c
  end.

Definition loggers_of (ss : list setting) : list (option log.Logger) :=
  omap (λ s, match s with UseLogger l => Some l | UseClient _ => None end) ss.

Definition clients_of (ss : list setting) : list (option http.Client) :=
  omap (λ s, match s with UseClient c => Some c | UseLogger _ => None end) ss.

Definition is_shutdown (c : call) : bool :=
  match c with
  | CallShutdown _ => true
  | CallExportSpans _ _ => false
  end.

(** The exporter [e] with another logger, or with none. *)
Definition with_logger (e : Exporter) (lg : option log.Logger) : Exporter :=
  mkExporter (url_ e) (serviceName e) (client e) lg (stopped e).

Definition is_log (ev : event) : bool :=
  match ev with
  | LogPrintf _ _ => true
  | _ => false
  end.

Definition is_BodyRead (ev : event) : bool :=
  match ev with
  | BodyRead => true
  | _ => false
  end.

Definition is_BodyClose (ev : event) : bool :=
  match ev with
  | BodyClose => true
  | _ => false
  end.

(** The responses the transport of [e] gave to the requests of a run. *)
Definition responses (e : Exporter) (t : list event) : list http.Response :=
  omap (λ req, match client e req with
               | Ok resp => Some resp
               | Err _ => None
               end) (requests t).

(** The formats of the errors [ExportSpans] can build with [errf]. *)
Definition reachable_error_formats : list string :=
  [ "unable to serialize span data";
    "failed to create request to %s: %v";
    "request to %s failed: %v";
    "failed to read response body: %v" ].

(** A binary64 NaN: sign 0, exponent all ones, the first mantissa bit. *)
Definition float64_NaN : float64 := Float64frombits 9221120237041090560.

(** An environment that sets the endpoint variable, and the span of the
    scenario with a NaN among its attributes. *)
Definition collectorEnv (key : string) : option string :=
  if bool_decide (key = envEndpoint) then Some "http://collector:4318/"
  else None.

Definition nan_span : sdktrace.ReadOnlySpan :=
  sdktrace.mkSpan "GET /"
    (sdktrace.SpanContext scenario_span) (sdktrace.Parent scenario_span)
    trace.SpanKindServer 1000 2000
    [ attribute.mkKeyValue "ratio" (attribute.Float64Value float64_NaN) ]
    [] []
    (sdktrace.mkStatus codes.Ok "") (sdktrace.mkLibrary "example" "v1") [].

(** A transport that fails on every request, a logger, and a list of
    options in which each kind occurs, one of them twice. *)
Definition failingTransport : http.Client :=
  λ _, Err (errorString "connection refused").

Definition stderrLogger : log.Logger := log.mkLogger "exporter: ".

Definition sample_settings : list setting :=
  [ UseClient (Some (mockTransport 500)); UseLogger (Some stderrLogger);
    UseClient (Some (mockTransport 204)) ].

(** The same options followed by a [WithClient(nil)] and a
    [WithLogger(nil)]. *)
Definition nil_last_settings : list setting :=
  sample_settings ++ [ UseClient None; UseLogger None ].

(** * Properties *)

(** ** Attributes *)

Lemma int64_raw_roundtrip (i : Z) :
  is_int64 i → int64_of_uint64 (uint64_of_int64 i) = i.
Proof.
  unfold is_int64, int64_of_uint64, uint64_of_int64. intros Hi.
  destruct (Z_lt_le_dec i 0) as [Hneg|Hpos].
  - replace (i mod 2 ^ 64) with (i + 2 ^ 64)
      by (apply Z.mod_unique with (q := -1); lia).
    case_decide; lia.
  - rewrite Z.mod_small by lia. case_decide; lia.
Qed.

Lemma bool_raw_roundtrip (b : bool) :
  attribute.RawToBool (attribute.BoolToRaw b) = b.
Proof. by destruct b. Qed.

Lemma attributesToMap_foldl_lookup (m : gmap string attribute.any)
    (attributes : list attribute.KeyValue) (k : string) :
  foldl (λ attrs v,
           <[attribute.Key v := attribute.AsInterface (attribute.Value_ v)]> attrs)
        m attributes !! k
  = match last (occurrences k attributes) with
    | Some v => Some (attribute.AsInterface (attribute.Value_ v))
    | None => m !! k
    end.
Proof.
  revert m. induction attributes as [|a l IH]; intros m; [done|].
  cbn [foldl]. rewrite IH. unfold occurrences. rewrite filter_cons.
  case_decide as Hk.
  - rewrite last_cons. destruct (last (filter _ l)); [done|].
    subst k. by rewrite lookup_insert_eq.
  - destruct (last (filter _ l)); [done|]. by rewrite lookup_insert_ne.
Qed.

Lemma attributesToMap_foldl_dom (m : gmap string attribute.any)
    (attributes : list attribute.KeyValue) :
  dom (foldl (λ attrs v,
                <[attribute.Key v := attribute.AsInterface (attribute.Value_ v)]> attrs)
             m attributes)
  = dom m ∪ list_to_set (attribute.Key <$> attributes).
Proof.
  revert m. induction attributes as [|a l IH]; intros m; cbn [foldl].
  - set_solver.
  - rewrite IH, dom_insert_L. set_solver.
Qed.

(** C10. The map built by [attributesToMap] has exactly the keys that
    occur in the input, and under each key the value of the last pair of
    the input that carries it. *)
Theorem attributesToMap_last_wins (attributes : list attribute.KeyValue) :
  dom (attributesToMap attributes) = list_to_set (attribute.Key <$> attributes)
  ∧ ∀ k : string,
      attributesToMap attributes !! k
      = (λ v, attribute.AsInterface (attribute.Value_ v))
          <$> last (occurrences k attributes).
Proof.
  unfold attributesToMap. split.
  - rewrite attributesToMap_foldl_dom. set_solver.
  - intros k. rewrite attributesToMap_foldl_lookup.
    destruct (last (occurrences k attributes)); [done|]. apply lookup_empty.
Qed.

(** C7. A supported attribute value, made a [Value] and read back through
    [AsInterface], is the value it was; so is what [attributesToMap]
    stores for it. Slices come back element for element, in order. *)
Theorem attribute_value_roundtrip (k : string) (t : attribute.typed) :
  attribute.supported t →
  attribute.extract (attribute.AsInterface (attribute.ValueOf t)) = Some t
  ∧ attributesToMap [attribute.mkKeyValue k (attribute.ValueOf t)] !! k
      ≫= attribute.extract = Some t.
Proof.
  intros Ht.
  assert (attribute.extract (attribute.AsInterface (attribute.ValueOf t)) = Some t)
    as Hrt.
  { destruct t as [b|i|f|s|s|s|s|s]; try done.
    - cbv [attribute.ValueOf attribute.BoolValue attribute.AsInterface
           attribute.vtype attribute.AsBool attribute.numeric attribute.extract].
      by rewrite bool_raw_roundtrip.
    - cbv [attribute.ValueOf attribute.Int64Value attribute.AsInterface
           attribute.vtype attribute.AsInt64 attribute.numeric attribute.extract
           attribute.RawToInt64 attribute.Int64ToRaw].
      by rewrite int64_raw_roundtrip.
    - by destruct f. }
  split; [done|].
  unfold attributesToMap; cbn [foldl attribute.Key attribute.Value_].
  by rewrite lookup_insert_eq.
Qed.

(** ** The converters *)

Lemma foldl_append_fmap {A B} (f : A → B) (acc : list B) (l : list A) :
  foldl (λ acc x, acc ++ [f x]) acc l = acc ++ (f <$> l).
Proof.
  revert acc. induction l as [|x l IH]; intros acc; cbn [foldl fmap list_fmap].
  - by rewrite app_nil_r.
  - rewrite IH. by rewrite <- app_assoc.
Qed.

Lemma convertSpansToHttp_fmap (spans : list sdktrace.ReadOnlySpan) :
  convertSpansToHttp spans = convertSpan <$> spans.
Proof. unfold convertSpansToHttp. by rewrite foldl_append_fmap. Qed.

Lemma linksToSlice_length (links : list sdktrace.Link) :
  length (linksToSlice links) = length links.
Proof. unfold linksToSlice. rewrite foldl_append_fmap. apply length_fmap. Qed.

Lemma eventsToSlice_length (events : list sdktrace.Event) :
  length (eventsToSlice events) = length events.
Proof. unfold eventsToSlice. rewrite foldl_append_fmap. apply length_fmap. Qed.

(** C6. [convertSpansToHttp] returns one record per span, in the order of
    the input, and no record for no span. The record at index [i] is
    derived from the span at index [i]: its ids are the hexadecimal ids
    of that span and of its parent, its name, kind, times, status and
    library are that span's, its attribute and resource maps are built
    from that span's attributes and resource, and its links and events
    are that span's links and events, one for one and in their order. The
    function is total. *)
Theorem convertSpansToHttp_one_to_one (spans : list sdktrace.ReadOnlySpan) :
  length (convertSpansToHttp spans) = length spans
  ∧ (∀ i : nat, convertSpansToHttp spans !! i = convertSpan <$> spans !! i)
  ∧ convertSpansToHttp [] = []
  ∧ (∀ (i : nat) (span : sdktrace.ReadOnlySpan),
       spans !! i = Some span →
       ∃ d : SpanData,
         convertSpansToHttp spans !! i = Some d
         ∧ TraceID d
           = trace.TraceID_String
               (trace.SpanContext_TraceID (sdktrace.SpanContext span))
         ∧ SpanID d
           = trace.SpanID_String
               (trace.SpanContext_SpanID (sdktrace.SpanContext span))
         ∧ ParentSpanID d
           = trace.SpanID_String
               (trace.SpanContext_SpanID (sdktrace.Parent span))
         ∧ Name d = sdktrace.Name span
         ∧ SpanKind d = sdktrace.SpanKind span
         ∧ StartTime d = sdktrace.StartTime span
         ∧ EndTime d = sdktrace.EndTime span
         ∧ StatusCode d = codes.String (sdktrace.Code (sdktrace.Status_ span))
         ∧ StatusMessage d = sdktrace.Description (sdktrace.Status_ span)
         ∧ InstrumentationLibraryName d
           = sdktrace.Library_Name (sdktrace.InstrumentationLibrary span)
         ∧ InstrumentationLibraryVersion d
           = sdktrace.Library_Version (sdktrace.InstrumentationLibrary span)
         ∧ Attrs d = attributesToMap (sdktrace.Attributes span)
         ∧ Resource d = attributesToMap (sdktrace.Resource span)
         ∧ Forall2
             (λ (l : Link) (v : sdktrace.Link),
                Link_TraceID l
                = trace.TraceID_String
                    (trace.SpanContext_TraceID (sdktrace.Link_SpanContext v))
                ∧ Link_SpanID l
                  = trace.SpanID_String
                      (trace.SpanContext_SpanID (sdktrace.Link_SpanContext v))
                ∧ Link_Attrs l = attributesToMap (sdktrace.Link_Attributes v))
             (Links d) (sdktrace.Links span)
         ∧ Forall2
             (λ (e : Event) (v : sdktrace.Event),
                Ts e = sdktrace.Event_Time v
                ∧ Event_Name e = sdktrace.Event_Name v
                ∧ Event_Attrs e = attributesToMap (sdktrace.Event_Attributes v))
             (MessageEvents d) (sdktrace.Events span)).
Proof.
  rewrite convertSpansToHttp_fmap. split_and!.
  - apply length_fmap.
  - intros i. apply list_lookup_fmap.
  - done.
  - intros i span Hi. exists (convertSpan span).
    rewrite list_lookup_fmap, Hi. split; [done|].
    cbn [convertSpan TraceID SpanID ParentSpanID Name SpanKind StartTime
         EndTime StatusCode StatusMessage InstrumentationLibraryName
         InstrumentationLibraryVersion Attrs Resource Links MessageEvents].
    split_and!; try reflexivity.
    + unfold linksToSlice. rewrite foldl_append_fmap. cbn [app].
      apply Forall2_fmap_l, Forall_Forall2_diag, Forall_forall.
      intros v _. by split_and!.
    + unfold eventsToSlice. rewrite foldl_append_fmap. cbn [app].
      apply Forall2_fmap_l, Forall_Forall2_diag, Forall_forall.
      intros v _. by split_and!.
Qed.

(** ** The wire format *)

Lemma marshal_fields_names (fields : list json.field)
    (members : list (string * json.value)) :
  Forall2 (λ f m, pair (json.name f) <$> json.encoded f = Some m) fields members →
  members.*1 = json.name <$> fields.
Proof.
  induction 1 as [|f m fields members Hm _ IH]; [done|].
  cbn [fmap list_fmap]. rewrite <- IH. f_equal.
  destruct (json.encoded f); simplify_eq/=; done.
Qed.

Lemma marshal_fields_assoc (fields : list json.field)
    (members : list (string * json.value)) (f : json.field) :
  Forall2 (λ f m, pair (json.name f) <$> json.encoded f = Some m) fields members →
  NoDup (json.name <$> fields) →
  f ∈ fields →
  json.assoc (json.name f) members = json.encoded f.
Proof.
  induction 1 as [|g m fields members Hm _ IH]; intros Hnd Hin.
  - by apply elem_of_nil in Hin.
  - cbn [fmap list_fmap] in Hnd. apply NoDup_cons in Hnd as [Hg Hnd].
    destruct (json.encoded g) as [v|] eqn:Hv; simplify_eq/=.
    apply elem_of_cons in Hin as [->|Hin].
    + rewrite decide_True by done. done.
    + rewrite decide_False; [by apply IH|].
      intros Heq. apply Hg. rewrite Heq. by apply list_elem_of_fmap_2.
Qed.

(** The members of an encoded struct are its fields that are not both
    [omitempty] and empty, under their names and in their order. *)
Lemma marshal_struct_names (fields : list json.field) (j : json.value) :
  json.marshal_struct fields = Some j →
  json.names j
  = json.name <$> filter (λ f, ¬ (json.omitEmpty f && json.isEmptyValue f)) fields.
Proof.
  unfold json.marshal_struct. intros Hj.
  destruct (mapM _ _) as [members|] eqn:Hm; simplify_eq/=.
  apply mapM_Some in Hm. by apply marshal_fields_names.
Qed.

(** A field that is kept is found under its name, with its encoding. *)
Lemma marshal_struct_member (fields : list json.field) (j : json.value)
    (f : json.field) :
  json.marshal_struct fields = Some j →
  NoDup (json.name <$> fields) →
  f ∈ fields →
  ¬ (json.omitEmpty f && json.isEmptyValue f) →
  json.member (json.name f) j = json.encoded f.
Proof.
  unfold json.marshal_struct. intros Hj Hnd Hin Hkept.
  destruct (mapM _ _) as [members|] eqn:Hm; simplify_eq/=.
  apply mapM_Some in Hm.
  apply marshal_fields_assoc with
    (fields := filter (λ f, ¬ (json.omitEmpty f && json.isEmptyValue f)) fields).
  - done.
  - eapply sublist_NoDup; [done|]. apply fmap_sublist, sublist_filter.
  - by apply list_elem_of_filter.
Qed.

Lemma SpanData_fields_NoDup (d : SpanData) :
  NoDup (json.name <$> SpanData_fields d).
Proof. apply (bool_decide_unpack _). by vm_compute. Qed.

(** Encoding succeeds on every record that holds no infinity and no NaN:
    nothing else makes [json.Marshal] fail on a [SpanData]. *)
Lemma marshal_float_is_Some (f : float64) :
  float64_finite f = true → is_Some (json.marshal_float f).
Proof. unfold json.marshal_float. intros ->. by eexists. Qed.

Lemma marshal_any_is_Some (v : attribute.any) :
  finite_any v = true → is_Some (json.marshal_any v).
Proof.
  destruct v; cbn [finite_any json.marshal_any]; intros Hv; try by eexists.
  - by apply marshal_float_is_Some.
  - apply fmap_is_Some, mapM_is_Some_2, Forall_forall.
    intros f Hf. apply marshal_float_is_Some.
    rewrite forallb_forall in Hv. by apply Hv, list_elem_of_In.
Qed.

Lemma marshal_map_is_Some (m : gmap string attribute.any) :
  finite_attrs m → is_Some (json.marshal_map m).
Proof.
  intros Hm. unfold json.marshal_map.
  apply fmap_is_Some, mapM_is_Some_2, Forall_forall.
  intros [k v] Hkv. cbn. apply fmap_is_Some, marshal_any_is_Some.
  rewrite merge_sort_Permutation in Hkv.
  apply elem_of_map_to_list in Hkv. by apply (Hm k v).
Qed.

Lemma marshal_struct_is_Some (fields : list json.field) :
  Forall (λ f, is_Some (json.encoded f)) fields →
  is_Some (json.marshal_struct fields).
Proof.
  intros Hf. unfold json.marshal_struct.
  apply fmap_is_Some, mapM_is_Some_2, Forall_forall.
  intros f [_ Hin]%list_elem_of_filter. cbn. apply fmap_is_Some.
  rewrite Forall_forall in Hf. by apply Hf.
Qed.

Lemma marshal_SpanData_total (d : SpanData) :
  finite_SpanData d → is_Some (marshal_SpanData d).
Proof.
  intros (Ha & Hr & Hl & He). apply marshal_struct_is_Some.
  unfold SpanData_fields. repeat apply Forall_cons_2; try apply Forall_nil_2;
    cbn [json.encoded]; try (by eexists); try by apply marshal_map_is_Some.
  - apply fmap_is_Some, mapM_is_Some_2. eapply Forall_impl; [exact Hl|].
    intros l Hfin. apply marshal_struct_is_Some.
    unfold Link_fields. repeat apply Forall_cons_2; try apply Forall_nil_2;
      cbn [json.encoded]; try (by eexists). by apply marshal_map_is_Some.
  - apply fmap_is_Some, mapM_is_Some_2. eapply Forall_impl; [exact He|].
    intros e Hfin. apply marshal_struct_is_Some.
    unfold Event_fields. repeat apply Forall_cons_2; try apply Forall_nil_2;
      cbn [json.encoded]; try (by eexists). by apply marshal_map_is_Some.
Qed.

Lemma marshal_SpanData_statusCode (d : SpanData) (j : json.value) :
  marshal_SpanData d = Some j →
  json.member "statusCode" j = Some (json.String (StatusCode d)).
Proof.
  intros Hj.
  apply (marshal_struct_member _ _
           (json.mkField "statusCode" false (bool_decide (StatusCode d = ""))
              (Some (json.String (StatusCode d))))
           Hj (SpanData_fields_NoDup d)).
  - apply list_elem_of_lookup. by exists 10%nat.
  - cbn. tauto.
Qed.

Lemma marshal_SpanData_spanKind (d : SpanData) (j : json.value) :
  marshal_SpanData d = Some j →
  json.member "spanKind" j = Some (json.Number (SpanKind d)).
Proof.
  intros Hj.
  apply (marshal_struct_member _ _
           (json.mkField "spanKind" false (bool_decide (SpanKind d = 0))
              (Some (json.Number (SpanKind d))))
           Hj (SpanData_fields_NoDup d)).
  - apply list_elem_of_lookup. by exists 13%nat.
  - cbn. tauto.
Qed.

(** C3 (amended). In the encoding of the record of a span, [statusCode]
    is the string name of the span's status code, and [spanKind] is the
    number of the span's kind. *)
Theorem statusCode_is_name_spanKind_is_number
    (span : sdktrace.ReadOnlySpan) (j : json.value) :
  marshal_SpanData (convertSpan span) = Some j →
  json.member "statusCode" j
    = Some (json.String (codes.String (sdktrace.Code (sdktrace.Status_ span))))
  ∧ json.member "spanKind" j = Some (json.Number (sdktrace.SpanKind span)).
Proof.
  intros Hj. split.
  - by rewrite (marshal_SpanData_statusCode _ _ Hj).
  - by rewrite (marshal_SpanData_spanKind _ _ Hj).
Qed.

Lemma SpanData_present_names (d : SpanData) :
  json.name <$> filter (λ f, ¬ (json.omitEmpty f && json.isEmptyValue f))
                       (SpanData_fields d)
  = present_names d.
Proof.
  unfold SpanData_fields, present_names.
  generalize (json.marshal_map (Attrs d)) (json.marshal_map (Resource d))
    (json.Array <$> mapM marshal_Link (Links d))
    (json.Array <$> mapM marshal_Event (MessageEvents d)).
  intros attrs resource links messageEvents.
  generalize (bool_decide (length (Links d) = 0%nat))
    (bool_decide (length (MessageEvents d) = 0%nat))
    (bool_decide (size (Resource d) = 0%nat)).
  intros no_links no_events no_resource.
  repeat match goal with
         | |- context [bool_decide ?P] => generalize (bool_decide P); intro
         end.
  destruct no_links, no_events, no_resource; reflexivity.
Qed.

(** Membership of a given name in a given list of names, decided. *)
Ltac decide_names := apply (bool_decide_unpack _); vm_compute; exact I.

(** C4 (amended). In the encoding of a span record, [links] and
    [messageEvents] are present exactly when their sequence is not empty,
    [resource] is present exactly when the resource map is not empty, and
    each of the other fifteen fields is present. *)
Theorem omitempty_fields_present_iff_nonempty (d : SpanData) (j : json.value) :
  marshal_SpanData d = Some j →
  ("links" ∈ json.names j ↔ Links d ≠ [])
  ∧ ("messageEvents" ∈ json.names j ↔ MessageEvents d ≠ [])
  ∧ ("resource" ∈ json.names j ↔ Resource d ≠ ∅)
  ∧ Forall (λ k, k ∈ json.names j) required_names.
Proof.
  intros Hj. rewrite (marshal_struct_names _ _ Hj). clear Hj.
  rewrite SpanData_present_names. unfold present_names.
  rewrite <- (map_size_non_empty_iff (Resource d)).
  rewrite <- (length_zero_iff_nil (Links d)).
  rewrite <- (length_zero_iff_nil (MessageEvents d)).
  destruct (bool_decide (length (Links d) = 0%nat)) eqn:Hl;
    destruct (bool_decide (length (MessageEvents d) = 0%nat)) eqn:He;
    destruct (bool_decide (size (Resource d) = 0%nat)) eqn:Hr.
  all: repeat match goal with
         | H : bool_decide _ = true |- _ => apply bool_decide_eq_true in H
         | H : bool_decide _ = false |- _ => apply bool_decide_eq_false in H
         end.
  all: repeat match goal with
         | |- _ ∧ _ => split
         | |- _ ↔ _ => split; intros ?
         | |- Forall _ required_names =>
             unfold required_names; repeat apply Forall_cons_2;
             [..|apply Forall_nil_2]
         | H : ?P |- ?P => exact H
         | H : ?P, H' : ¬ ?P |- _ => destruct (H' H)
         | H : _ ∈ _ |- _ => exfalso; revert H; decide_names
         | |- _ ∈ _ => decide_names
         end.
Qed.

(** What is empty in the record is what was empty in the span. *)
Lemma attributesToMap_empty_iff (attributes : list attribute.KeyValue) :
  attributesToMap attributes = ∅ ↔ attributes = [].
Proof.
  split; [|by intros ->].
  intros Hm. destruct attributes as [|a l]; [done|].
  assert (attribute.Key a ∈ dom (attributesToMap (a :: l))) as Hin.
  { unfold attributesToMap. rewrite attributesToMap_foldl_dom. set_solver. }
  rewrite Hm, dom_empty_L in Hin. by apply not_elem_of_empty in Hin.
Qed.

Lemma convertSpan_empty_iff (span : sdktrace.ReadOnlySpan) :
  (Links (convertSpan span) = [] ↔ sdktrace.Links span = [])
  ∧ (MessageEvents (convertSpan span) = [] ↔ sdktrace.Events span = [])
  ∧ (Resource (convertSpan span) = ∅ ↔ sdktrace.Resource span = []).
Proof.
  cbn [convertSpan Links MessageEvents Resource]. split_and!.
  - rewrite <- !length_zero_iff_nil. by rewrite linksToSlice_length.
  - rewrite <- !length_zero_iff_nil. by rewrite eventsToSlice_length.
  - apply attributesToMap_empty_iff.
Qed.

(** ** The exporter *)

Lemma logf_quiet (e : Exporter) (format : string) : quiet (logf e format).
Proof.
  unfold quiet, logf. destruct (logger e); repeat constructor.
Qed.

Lemma logf_requests (e : Exporter) (format : string) : requests (logf e format) = [].
Proof. unfold logf. by destruct (logger e). Qed.

(** C9. With the exporter not stopped, exporting the empty batch returns
    nil at once: the call does nothing but log, and issues no request. *)
Theorem ExportSpans_empty_batch (e : Exporter) (ctx : option context.Context) :
  stopped e = false →
  ExportSpans e ctx [] = (logf e "no spans to export", None)
  ∧ requests (ExportSpans e ctx []).1 = []
  ∧ quiet (ExportSpans e ctx []).1.
Proof.
  intros He. unfold ExportSpans. rewrite He. cbn.
  split_and!; [done | apply logf_requests | apply logf_quiet].
Qed.

Lemma ExportSpans_stopped (e : Exporter) (ctx : option context.Context)
    (spans : list sdktrace.ReadOnlySpan) :
  stopped e = true →
  ExportSpans e ctx spans
  = (logf e "exporter stopped, not exporting span batch", None).
Proof. intros He. unfold ExportSpans. by rewrite He. Qed.

Lemma Shutdown_stopped (e : Exporter) (ctx : context.Context) :
  stopped (Shutdown e ctx).1 = true.
Proof. unfold Shutdown. by destruct (context.Done ctx). Qed.

Lemma step_stopped (e : Exporter) (c : call) :
  stopped e = true → stopped (step e c).1 = true ∧ silent_success (c, (step e c).2).
Proof.
  intros He. destruct c as [ctx spans|ctx]; cbn [step].
  - split; [done|]. unfold silent_success; cbn.
    rewrite ExportSpans_stopped by done. cbn.
    split_and!; [done | apply logf_requests | apply logf_quiet].
  - pose proof (Shutdown_stopped e ctx) as Hs.
    destruct (Shutdown e ctx) as [e' err]. by split.
Qed.

Lemma run_stopped (e : Exporter) (cs : list call) :
  stopped e = true → Forall silent_success (run e cs).2.
Proof.
  revert e. induction cs as [|c cs IH]; intros e He; cbn [run].
  - constructor.
  - destruct (step_stopped e c He) as [He' Hc].
    destruct (step e c) as [e' out]. specialize (IH e' He').
    destruct (run e' cs) as [e'' outs]. by constructor.
Qed.

(** C2. Once [Shutdown] has been called, whatever it returned, every
    later [ExportSpans] returns nil without encoding the batch and without
    a request, whatever the batch and whatever calls come in between. *)
Theorem ExportSpans_after_Shutdown (e : Exporter) (ctx : context.Context) :
  (∀ (ctx' : option context.Context) (spans : list sdktrace.ReadOnlySpan),
     ExportSpans (Shutdown e ctx).1 ctx' spans
     = (logf (Shutdown e ctx).1 "exporter stopped, not exporting span batch", None))
  ∧ (∀ cs : list call, Forall silent_success (run (Shutdown e ctx).1 cs).2).
Proof.
  split.
  - intros ctx' spans. apply ExportSpans_stopped, Shutdown_stopped.
  - intros cs. apply run_stopped, Shutdown_stopped.
Qed.

(** C5 (amended). [Shutdown] always stops the exporter, changing nothing
    else of it; it then returns the error of the context when the
    context is done, and nil otherwise. *)
Theorem Shutdown_stops_then_reports_context (e : Exporter) (ctx : context.Context) :
  (Shutdown e ctx).1
  = mkExporter (url_ e) (serviceName e) (client e) (logger e) true
  ∧ (Shutdown e ctx).2 = (if context.Done ctx then context.Err_ ctx else None)
  ∧ (is_Some (Shutdown e ctx).2 ↔ context.Done ctx = true).
Proof.
  unfold Shutdown, context.Done. destruct ctx as [[err|]]; cbn.
  - split_and!; [done..|]. split; [done|by eexists].
  - split_and!; [done..|]. split; [by intros [? ?]|done].
Qed.

Lemma status_check_never_true (status : Z) :
  (status <? 200) && (status >? 300) = false.
Proof.
  destruct (status <? 200) eqn:H1; [|done].
  destruct (status >? 300) eqn:H2; [|done]. lia.
Qed.

(** Whatever the status of the response, an export that gets a response
    and reads its body returns nil. *)
Lemma ExportSpans_ignores_status (e : Exporter) (ctx : option context.Context)
    (spans : list sdktrace.ReadOnlySpan) (body : json.value)
    (req : http.Request) (resp : http.Response) :
  stopped e = false →
  spans ≠ [] →
  json_Marshal (convertSpansToHttp spans) = Some body →
  NewRequestWithContext ctx "POST" (url_ e) body = Ok req →
  client e (http.Header_Set req "Content-Type" "application/json") = Ok resp →
  http.BodyReadErr resp = None →
  (ExportSpans e ctx spans).2 = None.
Proof.
  intros He Hs Hb Hreq Hdo Hread. unfold ExportSpans.
  rewrite He, Hb, Hreq, Hdo, Hread, status_check_never_true.
  rewrite bool_decide_eq_false_2; [done|].
  by destruct spans.
Qed.

(** ** Construction *)

(** The string "not-a-url" has no scheme and no authority: whatever the
    sub-parsers do, it parses to a URL with neither, or not at all. *)
Lemma url_Parse_not_a_url :
  url_Parse "not-a-url"
  = match setPath "not-a-url" with
    | Err err => Err (url_Error "parse" "not-a-url" err)
    | Ok path => Ok (url.mkURL "" "" "" path false "" "")
    end.
Proof.
  unfold url_Parse, url_parse, parse_hier. vm_compute.
  by destruct (setPath _).
Qed.

(** C8. [New] fails with a configuration error when the collector URL it
    resolved parses to a URL that has no scheme or no host, and succeeds
    when that URL has both; "not-a-url" is refused. *)
Theorem New_requires_scheme_and_host (collectorURL : string) (opts : list Option) :
  (∀ u : url.URL,
     url_Parse (resolveURL collectorURL) = Ok u →
     url.Scheme u = "" ∨ url.Host u = "" →
     ∃ err, New collectorURL opts = Err err ∧ configuration_error err)
  ∧ (∀ u : url.URL,
       url_Parse (resolveURL collectorURL) = Ok u →
       url.Scheme u ≠ "" → url.Host u ≠ "" →
       ∃ e, New collectorURL opts = Ok e
            ∧ url_ e = resolveURL collectorURL ∧ stopped e = false)
  ∧ (∃ err, New "not-a-url" opts = Err err ∧ configuration_error err).
Proof.
  split_and!.
  - intros u Hu Hmiss. unfold New. rewrite Hu.
    assert (bool_decide (url.Scheme u = "") || bool_decide (url.Host u = "") = true)
      as ->.
    { destruct Hmiss as [H|H]; rewrite H; cbn; [done|].
      by destruct (bool_decide (url.Scheme u = "")). }
    by eexists.
  - intros u Hu Hs Hh. unfold New. rewrite Hu.
    rewrite !bool_decide_eq_false_2 by done. cbn. by eexists.
  - unfold New. replace (resolveURL "not-a-url") with "not-a-url" by done.
    rewrite url_Parse_not_a_url.
    destruct (setPath "not-a-url"); cbn; by eexists.
Qed.

(** A collector URL that does not parse is refused as well. *)
Lemma New_parse_error (collectorURL : string) (opts : list Option) (err : error) :
  url_Parse (resolveURL collectorURL) = Err err →
  ∃ err', New collectorURL opts = Err err' ∧ configuration_error err'.
Proof. intros Hu. unfold New. rewrite Hu. by eexists. Qed.

(** [New] succeeds only in that case: it returns an exporter exactly when
    the resolved URL parses and has a scheme and a host. *)
Lemma New_Ok_iff (collectorURL : string) (opts : list Option) :
  is_Ok (New collectorURL opts) = true
  ↔ ∃ u, url_Parse (resolveURL collectorURL) = Ok u
         ∧ url.Scheme u ≠ "" ∧ url.Host u ≠ "".
Proof.
  unfold New. destruct (url_Parse (resolveURL collectorURL)) as [u|err].
  - destruct (decide (url.Scheme u = "")) as [Hs|Hs];
      [|destruct (decide (url.Host u = "")) as [Hh|Hh]].
    + rewrite bool_decide_eq_true_2 by done. cbn. split; [done|].
      intros (u' & ? & ? & ?); by simplify_eq.
    + rewrite (bool_decide_eq_true_2 (url.Host u = "")) by done.
      rewrite orb_true_r. cbn. split; [done|].
      intros (u' & ? & ? & ?); by simplify_eq.
    + rewrite !bool_decide_eq_false_2 by done. cbn. split; [|done].
      intros _. by exists u.
  - cbn. split; [done|]. by intros (u' & ? & _).
Qed.

(** * Further properties *)

(** ** The converters of links, events and attributes *)

(** X1. [linksToSlice] and [eventsToSlice] return one record per link and
    per event, in the order of the input: the record at index [i] is built
    from the link, or the event, at index [i]. *)
Theorem linksToSlice_eventsToSlice_one_to_one
    (links : list sdktrace.Link) (events : list sdktrace.Event) :
  length (linksToSlice links) = length links
  ∧ (∀ i : nat, linksToSlice links !! i = convertLink <$> links !! i)
  ∧ length (eventsToSlice events) = length events
  ∧ (∀ i : nat, eventsToSlice events !! i = convertEvent <$> events !! i).
Proof.
  assert (linksToSlice links = convertLink <$> links) as ->.
  { unfold linksToSlice. apply (foldl_append_fmap convertLink []). }
  assert (eventsToSlice events = convertEvent <$> events) as ->.
  { unfold eventsToSlice. apply (foldl_append_fmap convertEvent []). }
  split_and!.
  - apply length_fmap.
  - intros i. apply list_lookup_fmap.
  - apply length_fmap.
  - intros i. apply list_lookup_fmap.
Qed.

Lemma size_list_to_set_le (keys : list string) :
  (size (list_to_set keys : gset string) ≤ length keys)%nat
  ∧ (size (list_to_set keys : gset string) = length keys → NoDup keys).
Proof.
  induction keys as [|k keys [IHle IHnd]]; cbn [list_to_set length].
  - split; [by rewrite size_empty|constructor].
  - destruct (decide (k ∈ (list_to_set keys : gset string))) as [Hin|Hnin].
    + replace ({[k]} ∪ list_to_set keys) with (list_to_set keys : gset string)
        by set_solver.
      split; [lia|lia].
    + rewrite size_union by set_solver. rewrite size_singleton.
      split; [lia|]. intros Hsz. constructor.
      * by rewrite elem_of_list_to_set in Hnin.
      * apply IHnd. lia.
Qed.

(** X2. The map built by [attributesToMap] has at most as many entries as
    the input has pairs, and exactly as many when, and only when, no key
    occurs twice: a pair is lost for each repeated key. *)
Theorem attributesToMap_size (attributes : list attribute.KeyValue) :
  (size (attributesToMap attributes) ≤ length attributes)%nat
  ∧ (size (attributesToMap attributes) = length attributes
     ↔ NoDup (attribute.Key <$> attributes)).
Proof.
  rewrite <- size_dom. unfold attributesToMap.
  rewrite attributesToMap_foldl_dom, dom_empty_L, (left_id_L ∅ (∪)).
  rewrite <- (length_fmap attribute.Key attributes).
  destruct (size_list_to_set_le (attribute.Key <$> attributes)) as [Hle Hnd].
  split_and!; [done|]. split; [done|].
  intros Hk. by apply size_list_to_set.
Qed.

(** X3. Converting two lists of attributes one after the other is
    converting each and letting the second map win on the keys they
    share. *)
Theorem attributesToMap_app (l1 l2 : list attribute.KeyValue) :
  attributesToMap (l1 ++ l2) = attributesToMap l2 ∪ attributesToMap l1.
Proof.
  apply map_eq. intros k. unfold attributesToMap.
  rewrite foldl_app, lookup_union, !attributesToMap_foldl_lookup.
  rewrite lookup_empty.
  destruct (last (occurrences k l2)), (last (occurrences k l1)); done.
Qed.

(** ** More on the wire format *)

Lemma SpanData_field_member (d : SpanData) (j : json.value) (i : nat)
    (f : json.field) :
  marshal_SpanData d = Some j →
  SpanData_fields d !! i = Some f →
  json.omitEmpty f && json.isEmptyValue f = false →
  json.member (json.name f) j = json.encoded f.
Proof.
  intros Hj Hi Hf.
  apply (marshal_struct_member _ _ f Hj (SpanData_fields_NoDup d)).
  - apply list_elem_of_lookup. by exists i.
  - rewrite Hf. tauto.
Qed.

(** X4. The three dropped counts of a converted span are encoded as 0,
    whatever the span: the converter never assigns them. *)
Theorem convertSpan_dropped_counts_zero
    (span : sdktrace.ReadOnlySpan) (j : json.value) :
  marshal_SpanData (convertSpan span) = Some j →
  json.member "droppedAttributesCount" j = Some (json.Number 0)
  ∧ json.member "droppedLinkCount" j = Some (json.Number 0)
  ∧ json.member "droppedMessageEventCount" j = Some (json.Number 0).
Proof.
  intros Hj. split_and!.
  - by apply (SpanData_field_member _ _ 7%nat _ Hj eq_refl).
  - by apply (SpanData_field_member _ _ 9%nat _ Hj eq_refl).
  - by apply (SpanData_field_member _ _ 12%nat _ Hj eq_refl).
Qed.

(** X5. The other fields of the record of a span carry what the span's
    methods return: the trace id and span id of the span's context and
    the span id of its parent's, in hexadecimal, the name, the two times
    as integers, the description of the status, and the name and version
    of the instrumentation library. *)
Theorem convertSpan_scalar_fields
    (span : sdktrace.ReadOnlySpan) (j : json.value) :
  marshal_SpanData (convertSpan span) = Some j →
  json.member "traceId" j
    = Some (json.String
              (trace.TraceID_String
                 (trace.SpanContext_TraceID (sdktrace.SpanContext span))))
  ∧ json.member "spanId" j
    = Some (json.String
              (trace.SpanID_String
                 (trace.SpanContext_SpanID (sdktrace.SpanContext span))))
  ∧ json.member "parentSpanId" j
    = Some (json.String
              (trace.SpanID_String
                 (trace.SpanContext_SpanID (sdktrace.Parent span))))
  ∧ json.member "name" j = Some (json.String (sdktrace.Name span))
  ∧ json.member "startTime" j = Some (json.Number (sdktrace.StartTime span))
  ∧ json.member "endTime" j = Some (json.Number (sdktrace.EndTime span))
  ∧ json.member "statusMessage" j
    = Some (json.String (sdktrace.Description (sdktrace.Status_ span)))
  ∧ json.member "instrumentationLibraryName" j
    = Some (json.String
              (sdktrace.Library_Name (sdktrace.InstrumentationLibrary span)))
  ∧ json.member "instrumentationLibraryVersion" j
    = Some (json.String
              (sdktrace.Library_Version (sdktrace.InstrumentationLibrary span))).
Proof.
  intros Hj. split_and!.
  - by apply (SpanData_field_member _ _ 0%nat _ Hj eq_refl).
  - by apply (SpanData_field_member _ _ 1%nat _ Hj eq_refl).
  - by apply (SpanData_field_member _ _ 2%nat _ Hj eq_refl).
  - by apply (SpanData_field_member _ _ 3%nat _ Hj eq_refl).
  - by apply (SpanData_field_member _ _ 4%nat _ Hj eq_refl).
  - by apply (SpanData_field_member _ _ 5%nat _ Hj eq_refl).
  - by apply (SpanData_field_member _ _ 14%nat _ Hj eq_refl).
  - by apply (SpanData_field_member _ _ 15%nat _ Hj eq_refl).
  - by apply (SpanData_field_member _ _ 16%nat _ Hj eq_refl).
Qed.

(** Encoding fails on nothing but an infinity or a NaN. *)
Lemma marshal_any_is_Some_iff (v : attribute.any) :
  is_Some (json.marshal_any v) ↔ finite_any v = true.
Proof.
  split; [|apply marshal_any_is_Some].
  destruct v as [| |f| | | |s| |]; cbn [finite_any json.marshal_any]; try done.
  - unfold json.marshal_float. destruct (float64_finite f); [done|by intros [? ?]].
  - intros Hs%fmap_is_Some%mapM_is_Some_1.
    apply forallb_forall. intros f Hf%list_elem_of_In.
    rewrite Forall_forall in Hs. specialize (Hs f Hf). cbn in Hs.
    unfold json.marshal_float in Hs.
    destruct (float64_finite f); [done|by destruct Hs].
Qed.

Lemma marshal_map_is_Some_iff (m : gmap string attribute.any) :
  is_Some (json.marshal_map m) ↔ finite_attrs m.
Proof.
  split; [|apply marshal_map_is_Some].
  unfold json.marshal_map. intros Hm%fmap_is_Some%mapM_is_Some_1.
  intros k v Hkv. rewrite Forall_forall in Hm.
  assert ((k, v) ∈ merge_sort json.key_le (map_to_list m)) as Hin.
  { rewrite merge_sort_Permutation. by apply elem_of_map_to_list. }
  specialize (Hm _ Hin). cbn in Hm.
  by apply fmap_is_Some, marshal_any_is_Some_iff in Hm.
Qed.

Lemma marshal_struct_is_Some_inv (fields : list json.field) (f : json.field) :
  is_Some (json.marshal_struct fields) →
  f ∈ fields →
  json.omitEmpty f && json.isEmptyValue f = false →
  is_Some (json.encoded f).
Proof.
  unfold json.marshal_struct.
  intros Hs%fmap_is_Some%mapM_is_Some_1 Hin Hkept.
  rewrite Forall_forall in Hs.
  assert (f ∈ filter (λ f, ¬ (json.omitEmpty f && json.isEmptyValue f)) fields)
    as Hf.
  { apply list_elem_of_filter. split; [|done]. rewrite Hkept. tauto. }
  specialize (Hs f Hf). cbn in Hs. by apply fmap_is_Some in Hs.
Qed.

Lemma marshal_Link_is_Some_inv (l : Link) :
  is_Some (marshal_Link l) → finite_attrs (Link_Attrs l).
Proof.
  intros Hl. apply marshal_map_is_Some_iff.
  apply (marshal_struct_is_Some_inv (Link_fields l)
           (json.mkField "attrs" false
              (bool_decide (size (Link_Attrs l) = 0%nat))
              (json.marshal_map (Link_Attrs l))) Hl); [|done].
  apply list_elem_of_lookup. by exists 2%nat.
Qed.

Lemma marshal_Event_is_Some_inv (e : Event) :
  is_Some (marshal_Event e) → finite_attrs (Event_Attrs e).
Proof.
  intros He. apply marshal_map_is_Some_iff.
  apply (marshal_struct_is_Some_inv (Event_fields e)
           (json.mkField "attrs" false
              (bool_decide (size (Event_Attrs e) = 0%nat))
              (json.marshal_map (Event_Attrs e))) He); [|done].
  apply list_elem_of_lookup. by exists 2%nat.
Qed.

Lemma SpanData_field_is_Some (d : SpanData) (i : nat) (f : json.field) :
  is_Some (marshal_SpanData d) →
  SpanData_fields d !! i = Some f →
  json.omitEmpty f && json.isEmptyValue f = false →
  is_Some (json.encoded f).
Proof.
  intros Hd Hi Hf. apply (marshal_struct_is_Some_inv (SpanData_fields d) f Hd).
  - apply list_elem_of_lookup. by exists i.
  - done.
Qed.

Lemma marshal_SpanData_is_Some_inv (d : SpanData) :
  is_Some (marshal_SpanData d) → finite_SpanData d.
Proof.
  intros Hd. unfold finite_SpanData. split_and!.
  - apply marshal_map_is_Some_iff.
    by apply (SpanData_field_is_Some d 6%nat _ Hd eq_refl).
  - destruct (bool_decide (size (Resource d) = 0%nat)) eqn:Hr.
    + apply bool_decide_eq_true, map_size_empty_iff in Hr. rewrite Hr.
      apply map_Forall_empty.
    + apply marshal_map_is_Some_iff.
      pose proof (SpanData_field_is_Some d 17%nat _ Hd eq_refl) as Hs.
      cbn [json.omitEmpty json.isEmptyValue json.encoded] in Hs.
      rewrite Hr in Hs. by apply Hs.
  - destruct (bool_decide (length (Links d) = 0%nat)) eqn:Hl.
    + apply bool_decide_eq_true, length_zero_iff_nil in Hl. by rewrite Hl.
    + pose proof (SpanData_field_is_Some d 8%nat _ Hd eq_refl) as Hs.
      cbn [json.omitEmpty json.isEmptyValue json.encoded] in Hs.
      rewrite Hl in Hs. specialize (Hs eq_refl).
      apply fmap_is_Some, mapM_is_Some_1 in Hs.
      eapply Forall_impl; [exact Hs|]. intros l. apply marshal_Link_is_Some_inv.
  - destruct (bool_decide (length (MessageEvents d) = 0%nat)) eqn:He.
    + apply bool_decide_eq_true, length_zero_iff_nil in He. by rewrite He.
    + pose proof (SpanData_field_is_Some d 11%nat _ Hd eq_refl) as Hs.
      cbn [json.omitEmpty json.isEmptyValue json.encoded] in Hs.
      rewrite He in Hs. specialize (Hs eq_refl).
      apply fmap_is_Some, mapM_is_Some_1 in Hs.
      eapply Forall_impl; [exact Hs|]. intros e. apply marshal_Event_is_Some_inv.
Qed.

(** A batch of records is encoded exactly when none of their attribute,
    resource, link or event maps holds an infinity or a NaN. *)
Lemma json_Marshal_is_Some_iff_finite (httpSpans : list SpanData) :
  is_Some (json_Marshal httpSpans) ↔ Forall finite_SpanData httpSpans.
Proof.
  unfold json_Marshal. rewrite fmap_is_Some, mapM_is_Some. split.
  - intros Hs. eapply Forall_impl; [exact Hs|].
    intros d. apply marshal_SpanData_is_Some_inv.
  - intros Hs. eapply Forall_impl; [exact Hs|].
    intros d. apply marshal_SpanData_total.
Qed.

(** X7. An encoded link has the members [traceId], [spanId] and [attrs],
    an encoded event the members [ts], [name] and [attrs], in that order:
    their [attrs] is kept also when it is empty. *)
Theorem marshal_Link_Event_names (l : Link) (e : Event) (jl je : json.value) :
  marshal_Link l = Some jl →
  marshal_Event e = Some je →
  json.names jl = ["traceId"; "spanId"; "attrs"]
  ∧ json.names je = ["ts"; "name"; "attrs"].
Proof.
  intros Hl He.
  rewrite (marshal_struct_names _ _ Hl), (marshal_struct_names _ _ He).
  unfold Link_fields, Event_fields.
  repeat match goal with
         | |- context [bool_decide ?P] => generalize (bool_decide P); intro
         end.
  generalize (json.marshal_map (Link_Attrs l)) (json.marshal_map (Event_Attrs e)).
  intros; split; reflexivity.
Qed.

(** X8. When a record has links, the [links] member of its encoding is an
    array of the encodings of the links, one per link and in their order;
    likewise [messageEvents] for its events. *)
Theorem marshal_SpanData_links_events (d : SpanData) (j : json.value) :
  marshal_SpanData d = Some j →
  (Links d ≠ [] →
   ∃ js, json.member "links" j = Some (json.Array js)
         ∧ Forall2 (λ l jl, marshal_Link l = Some jl) (Links d) js)
  ∧ (MessageEvents d ≠ [] →
     ∃ js, json.member "messageEvents" j = Some (json.Array js)
           ∧ Forall2 (λ e je, marshal_Event e = Some je) (MessageEvents d) js).
Proof.
  intros Hj. split; intros Hne; rewrite <- length_zero_iff_nil in Hne.
  - pose proof (SpanData_field_member d j 8%nat _ Hj eq_refl) as Hm.
    pose proof (SpanData_field_is_Some d 8%nat _ (mk_is_Some _ _ Hj) eq_refl)
      as Hs.
    cbn [json.name json.omitEmpty json.isEmptyValue json.encoded] in Hm, Hs.
    rewrite bool_decide_eq_false_2 in Hm, Hs by done.
    specialize (Hm eq_refl). specialize (Hs eq_refl).
    apply fmap_is_Some in Hs as [js Hjs].
    exists js. rewrite Hm, Hjs. split; [done|]. by apply mapM_Some_1.
  - pose proof (SpanData_field_member d j 11%nat _ Hj eq_refl) as Hm.
    pose proof (SpanData_field_is_Some d 11%nat _ (mk_is_Some _ _ Hj) eq_refl)
      as Hs.
    cbn [json.name json.omitEmpty json.isEmptyValue json.encoded] in Hm, Hs.
    rewrite bool_decide_eq_false_2 in Hm, Hs by done.
    specialize (Hm eq_refl). specialize (Hs eq_refl).
    apply fmap_is_Some in Hs as [js Hjs].
    exists js. rewrite Hm, Hjs. split; [done|]. by apply mapM_Some_1.
Qed.

(** ** More on the exporter *)

Lemma requests_app (t1 t2 : list event) :
  requests (t1 ++ t2) = requests t1 ++ requests t2.
Proof. apply omap_app. Qed.

Lemma NewRequestWithContext_Ok (ctx : option context.Context)
    (method url : string) (body : json.value) (req : http.Request) :
  NewRequestWithContext ctx method url body = Ok req →
  ∃ c, ctx = Some c ∧ req = http.mkRequest method url c [] body.
Proof.
  unfold NewRequestWithContext. destruct ctx as [c|]; [|done].
  destruct (url_Parse url); [|done]. intros [= <-]. by exists c.
Qed.

(** The cases of a call of [ExportSpans], one goal for each way it ends. *)
Ltac export_cases e ctx spans :=
  unfold ExportSpans, errf, body_is_nil;
  destruct (stopped e) eqn:?;
  [|destruct (bool_decide (length spans = 0%nat)) eqn:?;
    [|destruct (json_Marshal (convertSpansToHttp spans)) as [?body|] eqn:?;
      [match goal with
       | |- context [NewRequestWithContext ctx "POST" (url_ e) ?b] =>
           destruct (NewRequestWithContext ctx "POST" (url_ e) b)
             as [?req|?err] eqn:?
       end;
       [match goal with
        | |- context [client e ?r] =>
            destruct (client e r) as [?resp|?err] eqn:?
        end;
        [match goal with
         | |- context [http.BodyReadErr ?r] =>
             destruct (http.BodyReadErr r) as [?err|] eqn:?;
             [|rewrite (status_check_never_true (http.StatusCode r))]
         end| ]| ]| ]]];
  cbn [fst snd].

Lemma ExportSpans_requests (e : Exporter) (ctx : option context.Context)
    (spans : list sdktrace.ReadOnlySpan) :
  requests (ExportSpans e ctx spans).1
  = if stopped e then []
    else if bool_decide (length spans = 0%nat) then []
    else match json_Marshal (convertSpansToHttp spans) with
         | None => []
         | Some body =>
           match NewRequestWithContext ctx "POST" (url_ e) body with
           | Err _ => []
           | Ok req => [http.Header_Set req "Content-Type" "application/json"]
           end
         end.
Proof.
  export_cases e ctx spans;
    rewrite ?requests_app, ?logf_requests; reflexivity.
Qed.

(** X9. A call of [ExportSpans] issues at most one request, and only
    on an exporter that is not stopped and a batch that is not empty; the
    request is a POST to the exporter's URL under the caller's context,
    which is then not nil, its one header is the JSON content type, and
    its body is the encoding of the converted batch. *)
Theorem ExportSpans_request_shape (e : Exporter) (ctx : option context.Context)
    (spans : list sdktrace.ReadOnlySpan) (req : http.Request) :
  req ∈ requests (ExportSpans e ctx spans).1 →
  requests (ExportSpans e ctx spans).1 = [req]
  ∧ stopped e = false ∧ spans ≠ []
  ∧ http.Method req = "POST" ∧ http.URL req = url_ e
  ∧ ctx = Some (http.Ctx req)
  ∧ http.Header req = [("Content-Type", "application/json")]
  ∧ json_Marshal (convertSpansToHttp spans) = Some (http.Body req).
Proof.
  rewrite ExportSpans_requests.
  destruct (stopped e); [by intros ?%elem_of_nil|].
  destruct (bool_decide (length spans = 0%nat)) eqn:Hs;
    [by intros ?%elem_of_nil|].
  apply bool_decide_eq_false in Hs. rewrite length_zero_iff_nil in Hs.
  destruct (json_Marshal (convertSpansToHttp spans)) as [body|];
    [|by intros ?%elem_of_nil].
  destruct (NewRequestWithContext ctx "POST" (url_ e) body) as [req0|] eqn:Hreq;
    [|by intros ?%elem_of_nil].
  apply NewRequestWithContext_Ok in Hreq as (c & -> & ->).
  intros ->%list_elem_of_singleton. by split_and!.
Qed.

(** X10. An error returned by [ExportSpans] is built from one of four
    formats, with no argument and no cause: the batch could not be
    encoded, the request could not be created, the transport failed, or
    the body of the response could not be read. The status of a response
    and an empty encoding never give an error. *)
Theorem ExportSpans_errors (e : Exporter) (ctx : option context.Context)
    (spans : list sdktrace.ReadOnlySpan) (err : error) :
  (ExportSpans e ctx spans).2 = Some err →
  ∃ format, err = Errorf format [] None ∧ format ∈ reachable_error_formats.
Proof.
  unfold reachable_error_formats.
  export_cases e ctx spans; simpl; intros Herr; simplify_eq;
    eexists; (split; [reflexivity|]); set_solver.
Qed.

(** X11. With a logger set, an error returned by [ExportSpans] has been
    logged first, under the same format. *)
Theorem ExportSpans_error_is_logged (e : Exporter) (ctx : option context.Context)
    (spans : list sdktrace.ReadOnlySpan) (l : log.Logger)
    (format : string) (args : list fmt_arg) (cause : option error) :
  logger e = Some l →
  (ExportSpans e ctx spans).2 = Some (Errorf format args cause) →
  LogPrintf l format ∈ (ExportSpans e ctx spans).1.
Proof.
  intros Hl. unfold logf.
  export_cases e ctx spans; unfold logf; rewrite Hl; simpl;
    intros Herr; simplify_eq; set_solver.
Qed.

(** X12. The logger changes nothing but the log: the error returned is
    the one returned without a logger, and the events of the call, its
    log lines left out, are the events of the call made without a
    logger. *)
Theorem ExportSpans_logger_irrelevant (e : Exporter) (ctx : option context.Context)
    (spans : list sdktrace.ReadOnlySpan) :
  (ExportSpans e ctx spans).2 = (ExportSpans (with_logger e None) ctx spans).2
  ∧ filter (λ ev, ¬ is_log ev) (ExportSpans e ctx spans).1
    = (ExportSpans (with_logger e None) ctx spans).1.
Proof.
  unfold ExportSpans at 2 4. unfold errf.
  cbn [with_logger stopped url_ client].
  replace (logf (with_logger e None)) with (λ _ : string, @nil event) by done.
  export_cases e ctx spans; unfold logf; destruct (logger e);
    split; reflexivity.
Qed.

(** X13. The body of a response is read once and closed once for each
    response the transport gave, and never otherwise; when there is a
    response, closing its body is the last thing the call does, also when
    reading it failed. *)
Theorem ExportSpans_reads_and_closes_response (e : Exporter)
    (ctx : option context.Context) (spans : list sdktrace.ReadOnlySpan) :
  length (filter (λ ev, is_BodyRead ev) (ExportSpans e ctx spans).1)
  = length (responses e (ExportSpans e ctx spans).1)
  ∧ length (filter (λ ev, is_BodyClose ev) (ExportSpans e ctx spans).1)
    = length (responses e (ExportSpans e ctx spans).1)
  ∧ (last (ExportSpans e ctx spans).1 = Some BodyClose
     ↔ responses e (ExportSpans e ctx spans).1 ≠ []).
Proof.
  unfold responses. rewrite ExportSpans_requests.
  export_cases e ctx spans; unfold logf; destruct (logger e); simpl;
    repeat match goal with
           | H : client e _ = _ |- _ => rewrite H
           end;
    simpl; (split_and!; [reflexivity..|]); split; done.
Qed.

Lemma Shutdown_exporter (e : Exporter) (ctx : context.Context) :
  (Shutdown e ctx).1
  = mkExporter (url_ e) (serviceName e) (client e) (logger e) true.
Proof. unfold Shutdown. by destruct (context.Done ctx). Qed.

Lemma Shutdown_error (e : Exporter) (ctx : context.Context) :
  (Shutdown e ctx).2 = context.Err_ ctx.
Proof.
  unfold Shutdown, context.Done. by destruct ctx as [[err|]].
Qed.

(** X14. [Shutdown] is idempotent: a second call leaves the exporter as
    the first left it, and what it returns depends on its own context
    only, not on the first call. *)
Theorem Shutdown_idempotent (e : Exporter) (ctx ctx' : context.Context) :
  (Shutdown (Shutdown e ctx).1 ctx').1 = (Shutdown e ctx).1
  ∧ (Shutdown (Shutdown e ctx).1 ctx').2 = context.Err_ ctx'.
Proof.
  split; [|apply Shutdown_error]. by rewrite !Shutdown_exporter.
Qed.

Lemma run_exporter (e : Exporter) (cs : list call) :
  (run e cs).1
  = mkExporter (url_ e) (serviceName e) (client e) (logger e)
      (stopped e || existsb is_shutdown cs).
Proof.
  revert e. induction cs as [|c cs IH]; intros e; cbn [run existsb].
  - rewrite orb_false_r. by destruct e.
  - destruct c as [ctx spans|ctx]; cbn [step is_shutdown].
    + specialize (IH e). destruct (run e cs) as [e' outs]. simpl in *.
      by rewrite IH.
    + pose proof (Shutdown_exporter e ctx) as He.
      destruct (Shutdown e ctx) as [e' err]. simpl in He.
      specialize (IH e'). destruct (run e' cs) as [e'' outs]. simpl in *.
      rewrite IH, He. simpl. by rewrite orb_true_r.
Qed.

Lemma run_length (e : Exporter) (cs : list call) :
  (run e cs).2.*1 = cs.
Proof.
  revert e. induction cs as [|c cs IH]; intros e; cbn [run]; [done|].
  destruct (step e c) as [e' out]. specialize (IH e').
  destruct (run e' cs) as [e'' outs]. cbn in *. by rewrite IH.
Qed.

(** X15. Over any sequence of calls the exporter keeps its URL, its
    transport and its logger; it is stopped at the end exactly when it was
    stopped at the start or one of the calls was a [Shutdown]; and there
    is one outcome per call, in the order of the calls. *)
Theorem run_keeps_configuration (e : Exporter) (cs : list call) :
  url_ (run e cs).1 = url_ e
  ∧ client (run e cs).1 = client e
  ∧ logger (run e cs).1 = logger e
  ∧ stopped (run e cs).1 = stopped e || existsb is_shutdown cs
  ∧ (run e cs).2.*1 = cs.
Proof.
  rewrite run_exporter. split_and!; try done. apply run_length.
Qed.

(** X16. [MarshalLog] describes the exporter as of type "http" with the
    URL that each of its requests goes to, and no sequence of calls
    changes the description. *)
Theorem MarshalLog_stable (e : Exporter) (cs : list call)
    (ctx : option context.Context) (spans : list sdktrace.ReadOnlySpan) :
  MarshalLog (run e cs).1 = MarshalLog e
  ∧ Log_Type (MarshalLog e) = "http"
  ∧ Forall (λ req, http.URL req = Log_URL (MarshalLog e))
           (requests (ExportSpans (run e cs).1 ctx spans).1).
Proof.
  rewrite run_exporter. split_and!; [done..|].
  rewrite ExportSpans_requests. cbn [stopped url_].
  repeat case_match; try constructor; try done.
  match goal with
  | H : NewRequestWithContext _ _ _ _ = Ok _ |- _ =>
      apply NewRequestWithContext_Ok in H as (c & _ & ->)
  end.
  done.
Qed.

(** ** More on construction *)

Lemma New_Ok_inv (collectorURL : string) (opts : list Option) (e : Exporter) :
  New collectorURL opts = Ok e →
  url_ e = resolveURL collectorURL
  ∧ stopped e = false
  ∧ is_Ok (url_Parse (url_ e)) = true
  ∧ client e
    = default DefaultClient
        (config_client (foldl (λ cfg (opt : Option), opt cfg)
                          (mkConfig None None) opts))
  ∧ logger e
    = config_logger (foldl (λ cfg (opt : Option), opt cfg)
                       (mkConfig None None) opts).
Proof.
  unfold New.
  destruct (url_Parse (resolveURL collectorURL)) as [u|] eqn:Hu; [|done].
  destruct (bool_decide (url.Scheme u = "") || bool_decide (url.Host u = ""));
    [done|].
  intros [= <-]. cbn [url_ stopped client logger]. rewrite Hu.
  split_and!; done.
Qed.

Lemma resolveURL_not_empty (collectorURL : string) :
  resolveURL collectorURL ≠ "".
Proof.
  unfold resolveURL, envOr.
  destruct (bool_decide (collectorURL = "")) eqn:Hc.
  - destruct (LookupEnv envEndpoint) as [v|]; [|done].
    destruct (bool_decide (v = "")) eqn:Hv; cbn [negb]; [done|].
    by apply bool_decide_eq_false in Hv.
  - by apply bool_decide_eq_false in Hc.
Qed.

(** X17. The URL of the exporter built by [New] is the argument when it
    is not empty, else the value of the endpoint variable when it is set
    and not empty, else the default URL; it is never the empty string. *)
Theorem New_url_precedence (collectorURL : string) (opts : list Option)
    (e : Exporter) :
  New collectorURL opts = Ok e →
  url_ e ≠ ""
  ∧ (collectorURL ≠ "" → url_ e = collectorURL)
  ∧ (collectorURL = "" →
     ∀ v, LookupEnv envEndpoint = Some v → v ≠ "" → url_ e = v)
  ∧ (collectorURL = "" →
     LookupEnv envEndpoint = None ∨ LookupEnv envEndpoint = Some "" →
     url_ e = defaultURL).
Proof.
  intros (-> & _)%New_Ok_inv. split_and!.
  - apply resolveURL_not_empty.
  - intros Hc. unfold resolveURL. by rewrite bool_decide_eq_false_2.
  - intros -> v Hv Hne. unfold resolveURL, envOr.
    rewrite bool_decide_eq_true_2 by done. rewrite Hv.
    by rewrite bool_decide_eq_false_2.
  - intros -> [Hv|Hv]; unfold resolveURL, envOr;
      rewrite bool_decide_eq_true_2 by done; by rewrite Hv.
Qed.

Lemma foldl_options (cfg : config) (ss : list setting) :
  foldl (λ cfg (opt : Option), opt cfg) cfg (option_of <$> ss)
  = mkConfig
      (match last (clients_of ss) with
       | Some c => c
       | None => config_client cfg
       end)
      (match last (loggers_of ss) with
       | Some l => l
       | None => config_logger cfg
       end).
Proof.
  revert cfg. induction ss as [|s ss IH]; intros cfg.
  - by destruct cfg.
  - cbn [fmap list_fmap foldl]. rewrite IH.
    destruct s as [l|c]; cbn [option_of WithLogger WithClient config_client
                              config_logger clients_of loggers_of omap list_omap].
    + fold (loggers_of ss). fold (clients_of ss). rewrite last_cons.
      by destruct (last (loggers_of ss)).
    + fold (loggers_of ss). fold (clients_of ss). rewrite last_cons.
      by destruct (last (clients_of ss)).
Qed.

(** X18. [New] applies its options in order, and options of the one kind
    do not disturb the other. The exporter's transport is the client of
    the last [WithClient] when that client is not nil, and the default
    client when there is no [WithClient] or the last one was given nil;
    its logger is the logger of the last [WithLogger], nil if that was
    given nil, and nil when there is no [WithLogger]. *)
Theorem New_options_last_wins (collectorURL : string) (ss : list setting)
    (e : Exporter) :
  New collectorURL (option_of <$> ss) = Ok e →
  client e = match last (clients_of ss) with
             | Some (Some c) => c
             | Some None | None => DefaultClient
             end
  ∧ logger e = match last (loggers_of ss) with
               | Some l => l
               | None => None
               end.
Proof.
  intros (_ & _ & _ & Hc & Hl)%New_Ok_inv.
  rewrite foldl_options in Hc, Hl. cbn [config_client config_logger] in Hc, Hl.
  rewrite Hc, Hl. split.
  - by destruct (last (clients_of ss)) as [[c|]|].
  - done.
Qed.

(** X19. An exporter built by [New] has a URL that parses. So, at any
    time of its life, [ExportSpans] called with a context that is not nil
    never fails to create its request, and while the exporter is not
    stopped, a batch that is not empty and holds no infinity or NaN gives
    exactly one request, to the URL [New] resolved. Called with a nil
    context, such a batch gives the error of a request that could not be
    created, and no request. *)
Theorem New_exporter_sends_one_request (collectorURL : string)
    (opts : list Option) (e : Exporter) :
  New collectorURL opts = Ok e →
  (∀ (cs : list call) (ctx : context.Context)
     (spans : list sdktrace.ReadOnlySpan),
     (ExportSpans (run e cs).1 (Some ctx) spans).2
     ≠ Some (Errorf "failed to create request to %s: %v" [] None))
  ∧ (∀ (ctx : context.Context) (spans : list sdktrace.ReadOnlySpan),
       spans ≠ [] →
       Forall finite_SpanData (convertSpansToHttp spans) →
       ∃ req, requests (ExportSpans e (Some ctx) spans).1 = [req]
              ∧ http.URL req = resolveURL collectorURL)
  ∧ (∀ spans : list sdktrace.ReadOnlySpan,
       spans ≠ [] →
       Forall finite_SpanData (convertSpansToHttp spans) →
       (ExportSpans e None spans).2
       = Some (Errorf "failed to create request to %s: %v" [] None)
       ∧ requests (ExportSpans e None spans).1 = []).
Proof.
  intros (Hurl & Hst & Hparse & _)%New_Ok_inv.
  assert (∀ (ctx : context.Context) body, ∃ req,
            NewRequestWithContext (Some ctx) "POST" (url_ e) body = Ok req
            ∧ http.URL req = url_ e) as Hreq.
  { intros ctx body. unfold NewRequestWithContext.
    destruct (url_Parse (url_ e)); [|done]. by eexists. }
  split_and!.
  - intros cs ctx spans. rewrite run_exporter.
    set (e' := mkExporter _ _ _ _ _).
    export_cases e' (Some ctx) spans; simpl; try done.
    match goal with
    | H : NewRequestWithContext (Some ?c) _ (url_ e') ?b = Err _ |- _ =>
        destruct (Hreq c b) as (req & Hok & _); cbn [e' url_] in H;
        by rewrite Hok in H
    end.
  - intros ctx spans Hne Hfin. rewrite ExportSpans_requests, Hst.
    rewrite bool_decide_eq_false_2 by (by rewrite length_zero_iff_nil).
    apply json_Marshal_is_Some_iff_finite in Hfin as [body ->].
    destruct (Hreq ctx body) as (req & -> & Hu).
    eexists. split; [done|]. cbn. by rewrite Hu.
  - intros spans Hne Hfin. rewrite ExportSpans_requests.
    unfold ExportSpans, errf, body_is_nil. rewrite Hst.
    rewrite bool_decide_eq_false_2 by (by rewrite length_zero_iff_nil).
    apply json_Marshal_is_Some_iff_finite in Hfin as [body ->].
    by cbn [NewRequestWithContext snd].
Qed.

(** X6. On an exporter that is not stopped and a batch that is not
    empty, [ExportSpans] returns its serialization error exactly when a
    converted record holds an infinity or a NaN in one of its attribute,
    resource, link or event maps; it then issues no request. *)
Theorem ExportSpans_serialization_error (e : Exporter) (ctx : option context.Context)
    (spans : list sdktrace.ReadOnlySpan) :
  stopped e = false →
  spans ≠ [] →
  ((ExportSpans e ctx spans).2
   = Some (Errorf "unable to serialize span data" [] None)
   ↔ ¬ Forall finite_SpanData (convertSpansToHttp spans))
  ∧ ((ExportSpans e ctx spans).2
     = Some (Errorf "unable to serialize span data" [] None) →
     requests (ExportSpans e ctx spans).1 = []).
Proof.
  intros Hst Hne. rewrite ExportSpans_requests.
  rewrite <- json_Marshal_is_Some_iff_finite.
  rewrite <- length_zero_iff_nil in Hne.
  export_cases e ctx spans; simpl; try done.
  all: try match goal with
           | H : bool_decide _ = true |- _ =>
               by apply bool_decide_eq_true in H
           end.
  all: split; [split|];
    first [ done
          | by intros [=]
          | by intros Hn; destruct Hn; eexists
          | by intros _ [? ?] ].
Qed.

End Exporter.

(** * The properties at work on the examples *)

(** C6 on the batch of the scenario's span and the span with attributes:
    the second record is derived from the second span. *)
Lemma second_record_is_of_second_span :
  ∃ d, convertSpansToHttp [scenario_span; busy_span] !! 1%nat = Some d
       ∧ TraceID d = "4bf92f3577b34da6a3ce929d0e0e4736"
       ∧ SpanID d = "00f067aa0ba902b7"
       ∧ Name d = "GET /"
       ∧ SpanKind d = trace.SpanKindClient
       ∧ StatusCode d = "Error"
       ∧ StatusMessage d = "boom"
       ∧ length (Links d) = 1%nat
       ∧ length (MessageEvents d) = 1%nat.
Proof.
  destruct (convertSpansToHttp_one_to_one [scenario_span; busy_span])
    as (_ & _ & _ & Hderived).
  destruct (Hderived 1%nat busy_span eq_refl)
    as (d & Hd & Htrace & Hspan & _ & Hname & Hkind & _ & _ & Hcode & Hmsg
        & _ & _ & _ & _ & Hlinks & Hevents).
  exists d. split; [exact Hd|].
  apply Forall2_length in Hlinks. apply Forall2_length in Hevents.
  split_and!; [exact Htrace | exact Hspan | exact Hname | exact Hkind
              | exact Hcode | exact Hmsg | exact Hlinks | exact Hevents].
Defined.

(** C7 at the least [int64], stored under the key "retries". *)
Lemma attribute_value_roundtrip_min_int64 :
  attribute.extract
    (attribute.AsInterface (attribute.ValueOf (attribute.TInt64 (- 2 ^ 63))))
  = Some (attribute.TInt64 (- 2 ^ 63))
  ∧ attributesToMap
      [attribute.mkKeyValue "retries" (attribute.ValueOf (attribute.TInt64 (- 2 ^ 63)))]
      !! "retries" ≫= attribute.extract
    = Some (attribute.TInt64 (- 2 ^ 63)).
Proof.
  apply (attribute_value_roundtrip "retries" (attribute.TInt64 (- 2 ^ 63))).
  cbn. unfold is_int64. lia.
Defined.

(** C3 on the span with attributes, a client span with status Error. *)
Lemma busy_span_statusCode_spanKind :
  ∃ j, marshal_SpanData (convertSpan busy_span) = Some j
       ∧ json.member "statusCode" j = Some (json.String "Error")
       ∧ json.member "spanKind" j = Some (json.Number 3).
Proof.
  eexists. split; [vm_compute; reflexivity|].
  apply (statusCode_is_name_spanKind_is_number busy_span).
  vm_compute; reflexivity.
Defined.

(** C3 as first stated fails on the span of the scenario: its kind is
    named "server", and the [spanKind] of its encoding is not a string
    but the number 2; its [statusCode] is the string "Ok". *)
Lemma scenario_spanKind_is_not_a_string :
  ∃ j, marshal_SpanData (convertSpan scenario_span) = Some j
       ∧ trace.SpanKind_String (sdktrace.SpanKind scenario_span) = "server"
       ∧ json.member "spanKind" j = Some (json.Number 2)
       ∧ json.is_String <$> json.member "spanKind" j = Some false
       ∧ json.member "statusCode" j = Some (json.String "Ok").
Proof. eexists. split_and!; vm_compute; reflexivity. Qed.

(** C4 on the span with a link, an event and a resource attribute. *)
Lemma busy_span_fields_present :
  ∃ j, marshal_SpanData (convertSpan busy_span) = Some j
       ∧ ("links" ∈ json.names j ↔ Links (convertSpan busy_span) ≠ [])
       ∧ ("messageEvents" ∈ json.names j
          ↔ MessageEvents (convertSpan busy_span) ≠ [])
       ∧ ("resource" ∈ json.names j ↔ Resource (convertSpan busy_span) ≠ ∅)
       ∧ Forall (λ k, k ∈ json.names j) required_names.
Proof.
  eexists. split; [vm_compute; reflexivity|].
  apply (omitempty_fields_present_iff_nonempty (convertSpan busy_span)).
  vm_compute; reflexivity.
Defined.

(** C4 as first stated fails on the span of the scenario: it has no
    resource attribute, and its encoding has no [resource] member. *)
Lemma scenario_resource_is_omitted :
  ∃ j, marshal_SpanData (convertSpan scenario_span) = Some j
       ∧ sdktrace.Resource scenario_span = []
       ∧ json.member "resource" j = None
       ∧ bool_decide ("resource" ∈ json.names j) = false.
Proof. eexists. split_and!; vm_compute; reflexivity. Qed.

(** C5 as first stated fails on an exporter that is not stopped and a
    context already cancelled: [Shutdown] returns the cancellation error,
    and the exporter is stopped all the same. *)
Lemma Shutdown_canceled_stops_all_the_same :
  context.Done canceledCtx = true
  ∧ stopped (activeExporter (mockTransport 200)) = false
  ∧ (Shutdown (activeExporter (mockTransport 200)) canceledCtx).2
    = Some context.Canceled
  ∧ stopped (Shutdown (activeExporter (mockTransport 200)) canceledCtx).1 = true.
Proof. split_and!; vm_compute; reflexivity. Qed.

(** C9 on an exporter with the default URL. *)
Lemma ExportSpans_empty_batch_default :
  ExportSpans accept accept accept (activeExporter (mockTransport 200))
    (Some context.Background) []
  = (logf (activeExporter (mockTransport 200)) "no spans to export", None)
  ∧ requests
      (ExportSpans accept accept accept (activeExporter (mockTransport 200))
         (Some context.Background) []).1 = []
  ∧ quiet
      (ExportSpans accept accept accept (activeExporter (mockTransport 200))
         (Some context.Background) []).1.
Proof.
  apply (ExportSpans_empty_batch accept accept accept
           (activeExporter (mockTransport 200)) (Some context.Background)).
  reflexivity.
Defined.

(** C8 on "not-a-url", which is refused, and on the default URL, which
    is accepted. *)
Lemma New_not_a_url_and_default :
  (∃ err, New accept accept accept emptyEnv (mockTransport 200) "not-a-url" []
          = Err err ∧ configuration_error err)
  ∧ (∃ e, New accept accept accept emptyEnv (mockTransport 200) "" [] = Ok e
          ∧ url_ e = defaultURL ∧ stopped e = false).
Proof.
  split.
  - destruct (New_requires_scheme_and_host accept accept accept emptyEnv
                (mockTransport 200) "not-a-url" []) as (Hmissing & _ & _).
    eapply Hmissing.
    + vm_compute; reflexivity.
    + left; reflexivity.
  - destruct (New_requires_scheme_and_host accept accept accept emptyEnv
                (mockTransport 200) "" []) as (_ & Hboth & _).
    eapply Hboth.
    + vm_compute; reflexivity.
    + discriminate.
    + discriminate.
Defined.

(** C1. With a transport that answers 301, 400 or 500, as with one that
    answers 200, 204 or 299, the export of the scenario's span issues its
    one request and returns nil: the status of the response never makes
    [ExportSpans] fail. *)
Theorem ExportSpans_returns_nil_on_every_status :
  Forall (λ status,
            (ExportSpans accept accept accept (activeExporter (mockTransport status))
               (Some context.Background) [scenario_span]).2 = None
            ∧ length (requests
                        (ExportSpans accept accept accept
                           (activeExporter (mockTransport status))
                           (Some context.Background) [scenario_span]).1) = 1%nat)
         [200; 204; 299; 301; 400; 500].
Proof. repeat constructor; vm_compute; reflexivity. Qed.

(** The body sent for the span of the scenario is an array of one object,
    whose [traceId], [spanId] and [name] are those of the span. *)
Lemma scenario_span_body :
  ∃ j, json_Marshal (convertSpansToHttp [scenario_span]) = Some (json.Array [j])
       ∧ json.member "traceId" j
         = Some (json.String "4bf92f3577b34da6a3ce929d0e0e4736")
       ∧ json.member "spanId" j = Some (json.String "00f067aa0ba902b7")
       ∧ json.member "parentSpanId" j = Some (json.String "0000000000000000")
       ∧ json.member "name" j = Some (json.String "GET /").
Proof. eexists. split_and!; vm_compute; reflexivity. Qed.

(** * The further properties at work on the examples *)

(** X4 on the span with attributes. *)
Lemma busy_span_dropped_counts :
  ∃ j, marshal_SpanData (convertSpan busy_span) = Some j
       ∧ json.member "droppedAttributesCount" j = Some (json.Number 0)
       ∧ json.member "droppedLinkCount" j = Some (json.Number 0)
       ∧ json.member "droppedMessageEventCount" j = Some (json.Number 0).
Proof.
  eexists. split; [vm_compute; reflexivity|].
  apply (convertSpan_dropped_counts_zero busy_span).
  vm_compute; reflexivity.
Defined.

(** X5 on the span with attributes. *)
Lemma busy_span_scalar_fields :
  ∃ j, marshal_SpanData (convertSpan busy_span) = Some j
       ∧ json.member "traceId" j
         = Some (json.String "4bf92f3577b34da6a3ce929d0e0e4736")
       ∧ json.member "spanId" j = Some (json.String "00f067aa0ba902b7")
       ∧ json.member "parentSpanId" j = Some (json.String "0000000000000000")
       ∧ json.member "name" j = Some (json.String "GET /")
       ∧ json.member "startTime" j = Some (json.Number 1000)
       ∧ json.member "endTime" j = Some (json.Number 2000)
       ∧ json.member "statusMessage" j = Some (json.String "boom")
       ∧ json.member "instrumentationLibraryName" j
         = Some (json.String "example")
       ∧ json.member "instrumentationLibraryVersion" j
         = Some (json.String "v1").
Proof.
  eexists. split; [vm_compute; reflexivity|].
  apply (convertSpan_scalar_fields busy_span).
  vm_compute; reflexivity.
Defined.

(** X7 on a link with an attribute and an event with none. *)
Lemma sample_link_event_names :
  ∃ jl je,
    marshal_Link
      (convertLink
         (sdktrace.mkLink (sdktrace.SpanContext scenario_span)
            [attribute.mkKeyValue "why" (attribute.StringValue "follows")]))
    = Some jl
    ∧ marshal_Event (convertEvent (sdktrace.mkEvent "sent" [] 1500)) = Some je
    ∧ json.names jl = ["traceId"; "spanId"; "attrs"]
    ∧ json.names je = ["ts"; "name"; "attrs"].
Proof.
  do 2 eexists.
  split; [vm_compute; reflexivity|]. split; [vm_compute; reflexivity|].
  apply (marshal_Link_Event_names
           (convertLink
              (sdktrace.mkLink (sdktrace.SpanContext scenario_span)
                 [attribute.mkKeyValue "why" (attribute.StringValue "follows")]))
           (convertEvent (sdktrace.mkEvent "sent" [] 1500)));
    vm_compute; reflexivity.
Defined.

(** X8 on the span with attributes, which has one link and one event. *)
Lemma busy_span_links_events :
  ∃ j, marshal_SpanData (convertSpan busy_span) = Some j
       ∧ (∃ js, json.member "links" j = Some (json.Array js)
                ∧ Forall2 (λ l jl, marshal_Link l = Some jl)
                    (Links (convertSpan busy_span)) js)
       ∧ (∃ js, json.member "messageEvents" j = Some (json.Array js)
                ∧ Forall2 (λ e je, marshal_Event e = Some je)
                    (MessageEvents (convertSpan busy_span)) js).
Proof.
  destruct (marshal_SpanData (convertSpan busy_span)) as [j|] eqn:Hj;
    [|by vm_compute in Hj].
  exists j. split; [done|].
  destruct (marshal_SpanData_links_events _ _ Hj) as [Hl He].
  split; [apply Hl|apply He]; by vm_compute.
Defined.

(** X9 on the export of the scenario's span through a transport that
    answers 200. *)
Lemma scenario_request_shape :
  ∃ req,
    requests
      (ExportSpans accept accept accept (activeExporter (mockTransport 200))
         (Some context.Background) [scenario_span]).1 = [req]
    ∧ stopped (activeExporter (mockTransport 200)) = false
    ∧ [scenario_span] ≠ []
    ∧ http.Method req = "POST" ∧ http.URL req = defaultURL
    ∧ Some context.Background = Some (http.Ctx req)
    ∧ http.Header req = [("Content-Type", "application/json")]
    ∧ json_Marshal (convertSpansToHttp [scenario_span]) = Some (http.Body req).
Proof.
  eexists.
  eapply (ExportSpans_request_shape accept accept accept
            (activeExporter (mockTransport 200)) (Some context.Background)
            [scenario_span]).
  lazy. apply list_elem_of_here.
Defined.

(** X10 on a transport that fails. *)
Lemma failing_transport_error :
  (ExportSpans accept accept accept (activeExporter failingTransport)
     (Some context.Background) [scenario_span]).2
  = Some (Errorf "request to %s failed: %v" [] None)
  ∧ ∃ format,
      Errorf "request to %s failed: %v" [] None = Errorf format [] None
      ∧ format ∈ reachable_error_formats.
Proof.
  split; [vm_compute; reflexivity|].
  apply (ExportSpans_errors accept accept accept
           (activeExporter failingTransport) (Some context.Background)
           [scenario_span]).
  vm_compute; reflexivity.
Defined.

(** X11 on an exporter with a logger and a batch with a NaN. *)
Lemma nan_span_error_is_logged :
  LogPrintf stderrLogger "unable to serialize span data"
  ∈ (ExportSpans accept accept accept
       (with_logger (activeExporter (mockTransport 200)) (Some stderrLogger))
       (Some context.Background) [nan_span]).1.
Proof.
  apply (ExportSpans_error_is_logged accept accept accept
           (with_logger (activeExporter (mockTransport 200)) (Some stderrLogger))
           (Some context.Background) [nan_span] stderrLogger
           "unable to serialize span data" [] None).
  - reflexivity.
  - vm_compute; reflexivity.
Defined.

(** X6 on a batch with a NaN. *)
Lemma nan_span_is_not_sent :
  (ExportSpans accept accept accept (activeExporter (mockTransport 200))
     (Some context.Background) [nan_span]).2
  = Some (Errorf "unable to serialize span data" [] None)
  ∧ requests
      (ExportSpans accept accept accept (activeExporter (mockTransport 200))
         (Some context.Background) [nan_span]).1 = [].
Proof.
  split; [vm_compute; reflexivity|].
  apply (ExportSpans_serialization_error accept accept accept
           (activeExporter (mockTransport 200)) (Some context.Background) [nan_span]).
  - reflexivity.
  - discriminate.
  - vm_compute; reflexivity.
Defined.

(** X17 with no argument and the endpoint variable set. *)
Lemma New_url_from_environment :
  ∃ e, New accept accept accept collectorEnv (mockTransport 200) "" [] = Ok e
       ∧ url_ e = "http://collector:4318/"
       ∧ url_ e ≠ "".
Proof.
  eexists. split; [vm_compute; reflexivity|].
  destruct (New_url_precedence accept accept accept collectorEnv
              (mockTransport 200) "" []
              (mkExporter "http://collector:4318/" "" (mockTransport 200)
                 None false))
    as (Hne & _ & Henv & _).
  - vm_compute; reflexivity.
  - split; [|exact Hne].
    apply (Henv eq_refl "http://collector:4318/"); [reflexivity|discriminate].
Defined.

(** X18 on two transports with a logger in between, and on the same
    options followed by a nil client and a nil logger. *)
Lemma New_sample_settings :
  (∃ e, New accept accept accept emptyEnv (mockTransport 200) defaultURL
          (option_of <$> sample_settings) = Ok e
        ∧ client e = mockTransport 204
        ∧ logger e = Some stderrLogger)
  ∧ (∃ e, New accept accept accept emptyEnv (mockTransport 200) defaultURL
            (option_of <$> nil_last_settings) = Ok e
          ∧ client e = mockTransport 200
          ∧ logger e = None).
Proof.
  split.
  - eexists. split; [vm_compute; reflexivity|].
    apply (New_options_last_wins accept accept accept emptyEnv
             (mockTransport 200) defaultURL sample_settings).
    vm_compute; reflexivity.
  - eexists. split; [vm_compute; reflexivity|].
    apply (New_options_last_wins accept accept accept emptyEnv
             (mockTransport 200) defaultURL nil_last_settings).
    vm_compute; reflexivity.
Defined.

(** X19 on the exporter for the default URL, before and after a
    [Shutdown], and with a nil context. *)
Lemma New_default_sends_one_request :
  ∃ e, New accept accept accept emptyEnv (mockTransport 200) "" [] = Ok e
       ∧ (ExportSpans accept accept accept
            (run accept accept accept e [CallShutdown canceledCtx]).1
            (Some context.Background) [scenario_span]).2
         ≠ Some (Errorf "failed to create request to %s: %v" [] None)
       ∧ (∃ req,
            requests
              (ExportSpans accept accept accept e (Some context.Background)
                 [scenario_span]).1 = [req]
            ∧ http.URL req = defaultURL)
       ∧ (ExportSpans accept accept accept e None [scenario_span]).2
         = Some (Errorf "failed to create request to %s: %v" [] None)
       ∧ requests (ExportSpans accept accept accept e None [scenario_span]).1
         = [].
Proof.
  eexists. split; [vm_compute; reflexivity|].
  destruct (New_exporter_sends_one_request accept accept accept emptyEnv
              (mockTransport 200) "" []
              (mkExporter defaultURL "" (mockTransport 200) None false))
    as (Hcreate & Hone & Hnil).
  - vm_compute; reflexivity.
  - assert (Forall finite_SpanData (convertSpansToHttp [scenario_span])) as Hfin
      by (repeat constructor; apply map_Forall_empty).
    split; [apply Hcreate|]. split.
    + by apply (Hone context.Background [scenario_span]).
    + by apply (Hnil [scenario_span]).
Defined.
